(** * IEEEBibTeX: a shallow embedding of [src/bibtex/generator.py]

    The Python class [IEEEBibTeX] builds BibTeX entries, either from fields
    given by the caller or from a CrossRef record looked up by DOI.  Python
    [str] values are modelled by [string]; a character is a code point of the
    Latin-1 range (one [ascii]).  Python exceptions are modelled by the
    [result] type, the one HTTP request of [fetch_from_doi] by a state monad
    that threads the list of requested URLs. *)

From Stdlib Require Import String Ascii List Bool Arith Lia ZArith DecimalString.
Import ListNotations.
Open Scope string_scope.

(** ** Python string primitives *)

Module PyStr.

(** [str.isspace] on one character, and the class [\s] of [re] for [str]
    patterns: TAB, LF, VT, FF, CR, the separators FS, GS, RS, US, the
    space, NEL and the no-break space. *)
Definition isspace (c : ascii) : bool :=
  let n := nat_of_ascii c in
  (((9 <=? n) && (n <=? 13)) || ((28 <=? n) && (n <=? 32))
   || (n =? 133) || (n =? 160))%nat.

(** [str.lower] on one character of the Latin-1 range. *)
Definition lower_char (c : ascii) : ascii :=
  let n := nat_of_ascii c in
  if (((65 <=? n) && (n <=? 90))
      || ((192 <=? n) && (n <=? 222) && negb (n =? 215)))%nat
  then ascii_of_nat (n + 32) else c.

Fixpoint lower (s : string) : string :=
  match s with
  | EmptyString => EmptyString
  | String c s' => String (lower_char c) (lower s')
  end.

(** [s.lstrip(chars)] and [s.rstrip(chars)], the character set given as a
    predicate. *)
Fixpoint lstrip (p : ascii -> bool) (s : string) : string :=
  match s with
  | EmptyString => EmptyString
  | String c s' => if p c then lstrip p s' else s
  end.

Fixpoint rstrip (p : ascii -> bool) (s : string) : string :=
  match s with
  | EmptyString => EmptyString
  | String c s' =>
      match rstrip p s' with
      | EmptyString => if p c then EmptyString else String c EmptyString
      | r => String c r
      end
  end.

(** [s.strip()] *)
Definition strip (s : string) : string := rstrip isspace (lstrip isspace s).

(** [s.split(sep)] for a separator of one character: every occurrence
    splits, empty pieces are kept, the result is never empty. *)
Fixpoint split_on (sep : ascii) (s : string) : list string :=
  match s with
  | EmptyString => [EmptyString]
  | String c s' =>
      if Ascii.eqb c sep then EmptyString :: split_on sep s'
      else match split_on sep s' with
           | h :: t => String c h :: t
           | [] => [String c EmptyString]
           end
  end.

(** [s.split()]: the maximal runs of characters that are not whitespace. *)
Fixpoint split (s : string) : list string :=
  match s with
  | EmptyString => []
  | String c s' =>
      if isspace c then split s'
      else match s' with
           | EmptyString => [String c EmptyString]
           | String c' _ =>
               if isspace c' then String c EmptyString :: split s'
               else match split s' with
                    | h :: t => String c h :: t
                    | [] => [String c EmptyString]
                    end
           end
  end.

(** [sep.join(l)] *)
Definition join (sep : string) (l : list string) : string :=
  String.concat sep l.

(** [s.startswith(p)] *)
Definition startswith (s p : string) : bool := String.prefix p s.

(** [str(n)] for an [int]. *)
Definition str_of_int (n : Z) : string :=
  NilZero.string_of_int (Z.to_int n).

(** Membership of a character in the string given to [rstrip]. *)
Fixpoint char_in (chars : string) (c : ascii) : bool :=
  match chars with
  | EmptyString => false
  | String a r => Ascii.eqb c a || char_in r c
  end.

(** The newline, written [\n] in the source. *)
Definition nl : string := String (ascii_of_nat 10) EmptyString.

(** Number of occurrences of a character. *)
Fixpoint count (c : ascii) (s : string) : nat :=
  match s with
  | EmptyString => 0
  | String a r => (if Ascii.eqb a c then 1 else 0) + count c r
  end.

Fixpoint forallb (p : ascii -> bool) (s : string) : bool :=
  match s with
  | EmptyString => true
  | String a r => p a && forallb p r
  end.

(** Whether the first, the last character of a text is in a class. *)
Definition first_in (p : ascii -> bool) (s : string) : bool :=
  match s with
  | EmptyString => false
  | String c _ => p c
  end.

Fixpoint last_in (p : ascii -> bool) (s : string) : bool :=
  match s with
  | EmptyString => false
  | String c EmptyString => p c
  | String _ s' => last_in p s'
  end.

End PyStr.

(** ** Python exceptions *)

Inductive exn : Type :=
| IndexError
| KeyError (key : string)
| TypeError
| AttributeError
| ValueError (msg : string)
| Exception (msg : string).

Inductive result (A : Type) : Type :=
| Ok (a : A)
| Raise (e : exn).
Arguments Ok {A} a.
Arguments Raise {A} e.

Definition rbind {A B} (r : result A) (k : A -> result B) : result B :=
  match r with
  | Ok a => k a
  | Raise e => Raise e
  end.

(** [l[0]] and [l[-1]] on a list. *)
Definition first_item {A} (l : list A) : result A :=
  match l with
  | [] => Raise IndexError
  | x :: _ => Ok x
  end.

Definition last_item {A} (l : list A) : result A :=
  match rev l with
  | [] => Raise IndexError
  | x :: _ => Ok x
  end.

(** A method call [v.m(...)] on a value that may be [None]. *)
Definition as_str (v : option string) : result string :=
  match v with
  | Some s => Ok s
  | None => Raise AttributeError
  end.

(** ** The fragment of [re] used by [extract_doi_from_url] *)

Module Re.

(** A pattern is a sequence of items: a literal character, a greedy
    [[...]+] over a character class, and the parentheses of group 1. *)
Inductive item : Type :=
| Chr (c : ascii)
| Plus (p : ascii -> bool)
| Open
| Close.

(** The rest of a greedy repetition: take one more character of the class
    when that lets the rest of the pattern match, else stop here. *)
Fixpoint star (p : ascii -> bool) (k : string -> option string)
         (s : string) : option string :=
  match s with
  | EmptyString => k s
  | String c s' =>
      if p c then
        match star p k s' with
        | Some r => Some r
        | None => k s
        end
      else k s
  end.

(** The text between the position [g] where the group opened and the
    current position [s], a suffix of [g]. *)
Definition captured (g s : string) : string :=
  String.substring 0 (String.length g - String.length s) g.

(** Match the pattern at the start of [s]; [g] is the input from the
    opening parenthesis on, [cap] the text of group 1.  The result is
    [match.group(1)]. *)
Fixpoint match_here (r : list item) (g cap s : string) : option string :=
  match r with
  | [] => Some cap
  | Chr c :: r' =>
      match s with
      | String a s' => if Ascii.eqb a c then match_here r' g cap s' else None
      | EmptyString => None
      end
  | Plus p :: r' =>
      match s with
      | String a s' => if p a then star p (match_here r' g cap) s' else None
      | EmptyString => None
      end
  | Open :: r' => match_here r' s cap s
  | Close :: r' => match_here r' g (captured g s) s
  end.

(** [re.search(pattern, s)] followed by [.group(1)]: the leftmost start
    position at which the pattern matches. *)
Fixpoint search (r : list item) (s : string) : option string :=
  match match_here r EmptyString EmptyString s with
  | Some d => Some d
  | None =>
      match s with
      | EmptyString => None
      | String _ s' => search r s'
      end
  end.

Fixpoint lit (s : string) : list item :=
  match s with
  | EmptyString => []
  | String c s' => Chr c :: lit s'
  end.

(** The classes [[^/\s]] and [[0-9]]. *)
Definition not_slash_space (c : ascii) : bool :=
  negb (Ascii.eqb c "/") && negb (PyStr.isspace c).

Definition digit (c : ascii) : bool :=
  let n := nat_of_ascii c in ((48 <=? n) && (n <=? 57))%nat.

(** The texts a pattern matches, its parentheses left aside. *)
Fixpoint lang (r : list item) (w : string) : Prop :=
  match r with
  | [] => w = EmptyString
  | Chr c :: r' => exists w', w = String c w' /\ lang r' w'
  | Plus p :: r' =>
      exists a w1 w2,
        w = String a (w1 ++ w2)
        /\ p a = true /\ PyStr.forallb p w1 = true /\ lang r' w2
  | Open :: r' => lang r' w
  | Close :: r' => lang r' w
  end.

(** A pattern without parentheses. *)
Fixpoint flat (r : list item) : Prop :=
  match r with
  | [] => True
  | Chr _ :: r' => flat r'
  | Plus _ :: r' => flat r'
  | Open :: _ => False
  | Close :: _ => False
  end.

(** The number of literal slashes of a pattern. *)
Fixpoint slashes (r : list item) : nat :=
  match r with
  | [] => 0
  | Chr c :: r' => (if Ascii.eqb c "/" then 1 else 0) + slashes r'
  | _ :: r' => slashes r'
  end.

(** A pattern whose literals are not whitespace and whose classes hold
    neither whitespace nor the slash. *)
Fixpoint tidy (r : list item) : Prop :=
  match r with
  | [] => True
  | Chr c :: r' => PyStr.isspace c = false /\ tidy r'
  | Plus p :: r' =>
      (forall c, p c = true -> not_slash_space c = true) /\ tidy r'
  | _ :: r' => tidy r'
  end.

End Re.

Notation "'let*' x ':=' e 'in' k" := (rbind e (fun x => k))
  (at level 10, x name, e at level 100, k at level 200).

(** ** Dictionaries with string keys, in insertion order *)

Definition dict (V : Type) : Type := list (string * V).

Fixpoint dict_get {V} (d : dict V) (k : string) : option V :=
  match d with
  | [] => None
  | (k', v) :: d' => if String.eqb k' k then Some v else dict_get d' k
  end.

(** [d[k]] *)
Definition dict_item {V} (d : dict V) (k : string) : result V :=
  match dict_get d k with
  | Some v => Ok v
  | None => Raise (KeyError k)
  end.

(** [d.get(k, default)] *)
Definition dict_get_default {V} (d : dict V) (k : string) (default : V) : V :=
  match dict_get d k with
  | Some v => v
  | None => default
  end.

(** [d[k] = v]: a present key keeps its place, a new one goes last. *)
Fixpoint dict_set {V} (d : dict V) (k : string) (v : V) : dict V :=
  match d with
  | [] => [(k, v)]
  | (k', v') :: d' =>
      if String.eqb k' k then (k, v) :: d' else (k', v') :: dict_set d' k v
  end.

(** ** The CrossRef record, the [message] of the response body

    A key is absent or has the type the CrossRef schema gives it; a key
    that is present with the value [null] is outside these records. *)

Record Author : Type := {
  given : option string;
  family : option string
}.

Record DateField : Type := {
  date_parts : option (list (list (option Z)))
}.

Record RawRecord : Type := {
  title : option (list string);
  author : option (list Author);
  published_print : option DateField;
  type : option string;
  container_title : option (list string);
  volume : option string;
  issue : option string;
  page : option string
}.

(** What [requests.get(url)], [raise_for_status()] and [json()['message']]
    give for a URL: a [requests.exceptions.RequestException] or the record;
    a body without the key [message] is outside these answers. *)
Inductive response : Type :=
| RequestException (msg : string)
| Message (data : RawRecord).

(** ** Computations that may send requests: the URLs requested so far are
    threaded through. *)

Definition io (A : Type) : Type := list string -> result A * list string.

Definition ret {A} (a : A) : io A := fun log => (Ok a, log).

Definition lift {A} (r : result A) : io A := fun log => (r, log).

Definition bind {A B} (m : io A) (k : A -> io B) : io B :=
  fun log =>
    match m log with
    | (Ok a, log') => k a log'
    | (Raise e, log') => (Raise e, log')
    end.

Notation "x <- m ;; k" := (bind m (fun x => k))
  (at level 61, m at next level, right associativity).

(** ** The class [IEEEBibTeX] *)

Module IEEEBibTeX.

Import PyStr.

(** The truth value of a [str] or [None]. *)
Definition truthy (v : option string) : bool :=
  match v with
  | Some (String _ _) => true
  | _ => false
  end.

(** The text an f-string inserts for a [str] or [None]. *)
Definition format (v : option string) : string :=
  match v with
  | Some s => s
  | None => "None"
  end.

Definition _format_authors (authors : string) : string :=
  join " and " (map strip (split_on "," authors)).

Definition _create_entry (entry_type citation_key : string)
           (fields : dict (option string)) : string :=
  let entry := "@" ++ entry_type ++ "{" ++ citation_key ++ "," ++ nl in
  let entry :=
    fold_left
      (fun entry kv =>
         let '(key, value) := kv in
         if truthy value
         then entry ++ "  " ++ key ++ " = {" ++ format value ++ "}," ++ nl
         else entry)
      fields entry in
  rstrip (char_in ("," ++ nl)) entry ++ nl ++ "}".

(** [doi\.org/([^/\s]+/[^/\s]+)] *)
Definition doi_org_pattern : list Re.item :=
  (Re.lit "doi.org/"
     ++ [Re.Open; Re.Plus Re.not_slash_space; Re.Chr "/";
         Re.Plus Re.not_slash_space; Re.Close])%list.

(** [doi:([^/\s]+/[^/\s]+)] *)
Definition doi_colon_pattern : list Re.item :=
  (Re.lit "doi:"
     ++ [Re.Open; Re.Plus Re.not_slash_space; Re.Chr "/";
         Re.Plus Re.not_slash_space; Re.Close])%list.

(** [([0-9]+\.[0-9]+/[^/\s]+)] *)
Definition bare_pattern : list Re.item :=
  [Re.Open; Re.Plus Re.digit; Re.Chr "."; Re.Plus Re.digit; Re.Chr "/";
   Re.Plus Re.not_slash_space; Re.Close].

Definition doi_patterns : list (list Re.item) :=
  [doi_org_pattern; doi_colon_pattern; bare_pattern].

(** The loop over the patterns. *)
Fixpoint first_match (patterns : list (list Re.item)) (url : string)
  : option string :=
  match patterns with
  | [] => None
  | pattern :: rest =>
      match Re.search pattern url with
      | Some d => Some d
      | None => first_match rest url
      end
  end.

Definition extract_doi_from_url (url : string) : option string :=
  first_match doi_patterns url.

Definition create_article (citation_key : string) (title : option string)
           (authors : string) (journal year volume number pages doi
                               : option string) : string :=
  let fields :=
    [ ("author", Some (_format_authors authors));
      ("title", title);
      ("journal", journal);
      ("year", year);
      ("volume", volume);
      ("number", number);
      ("pages", pages);
      ("doi", doi) ] in
  _create_entry "article" citation_key fields.

Definition create_inproceeding (citation_key : string)
           (title : option string) (authors : string)
           (booktitle year pages location doi : option string) : string :=
  let fields :=
    [ ("author", Some (_format_authors authors));
      ("title", title);
      ("booktitle", booktitle);
      ("year", year);
      ("pages", pages);
      ("address", location);
      ("doi", doi) ] in
  _create_entry "inproceeding" citation_key fields.

(** *** [fetch_from_doi] *)

(** [data.get('title', [None])[0]] *)
Definition title_of (data : RawRecord) : result (option string) :=
  match title data with
  | None => Ok None
  | Some l => let* t := first_item l in Ok (Some t)
  end.

(** The [", ".join] over [data.get('author', [])]. *)
Definition authors_of (data : RawRecord) : string :=
  let get_or_empty (v : option string) :=
    match v with Some s => s | None => "" end in
  join ", "
       (map (fun a => get_or_empty (given a) ++ " " ++ get_or_empty (family a))
            (match author data with Some l => l | None => [] end)).

(** [str(v)] for an [int] or [None]. *)
Definition str (v : option Z) : string :=
  match v with
  | Some n => str_of_int n
  | None => "None"
  end.

(** [str(data.get('published-print', {}).get('date-parts', [[None]])[0][0])] *)
Definition year_of (data : RawRecord) : result string :=
  let parts :=
    match published_print data with
    | None => [[None]]
    | Some d =>
        match date_parts d with
        | None => [[None]]
        | Some p => p
        end
    end in
  let* row := first_item parts in
  let* y := first_item row in
  Ok (str y).

(** The body of the [try] after the response has arrived; the [print] of
    the record is left out.  An [IndexError] raised here is not a
    [RequestException] and passes the [except] clause. *)
Definition publication_info (data : RawRecord) (doi : string)
  : result (dict (option string)) :=
  let* t := title_of data in
  let a := authors_of data in
  let* y := year_of data in
  let info : dict (option string) :=
    [ ("title", t);
      ("authors", Some a);
      ("year", Some y);
      ("doi", Some doi);
      ("type", type data) ] in
  let* info :=
    match container_title data with
    | Some (j :: _) => Ok (dict_set info "journal" (Some j))
    | _ => Ok info
    end in
  let info :=
    if truthy (volume data) then dict_set info "volume" (volume data)
    else info in
  let info :=
    if truthy (issue data) then dict_set info "number" (issue data)
    else info in
  let info :=
    if truthy (page data) then dict_set info "pages" (page data)
    else info in
  Ok info.

(** *** [generate_from_identifier], block by block *)

(** Lines 88-93: the identifier is a URL or a DOI. *)
Definition identifier_doi (identifier : string) : result string :=
  if startswith identifier "http" then
    match extract_doi_from_url identifier with
    | Some (String c d) => Ok (String c d)
    | _ => Raise (ValueError "Could not extract DOI from URL")
    end
  else Ok identifier.

(** Lines 99-100: the citation key. *)
Definition citation_key_of (pub_info : dict (option string))
  : result string :=
  let* authors := dict_item pub_info "authors" in
  let* authors := as_str authors in
  let* first := first_item (split_on "," authors) in
  let* last := last_item (split first) in
  let first_author := lower last in
  let* year := dict_item pub_info "year" in
  let* title := dict_item pub_info "title" in
  let* title := as_str title in
  let* word := first_item (split title) in
  Ok (first_author ++ format year ++ lower word).

Definition type_mapping : dict string :=
  [ ("journal-article", "article");
    ("proceedings-article", "inproceedings") ].

(** [pub_info.get['pages']]: the method object is subscripted, not
    called. *)
Definition subscript_method (key : string) : result (option string) :=
  Raise TypeError.

(** Lines 103-136: the entry for the type of the record. *)
Definition entry_of (pub_info : dict (option string))
           (citation_key : string) : result string :=
  let* ty := dict_item pub_info "type" in
  let entry_type :=
    match ty with
    | Some t => dict_get_default type_mapping t "article"
    | None => "article"
    end in
  if String.eqb entry_type "article" then
    let* title := dict_item pub_info "title" in
    let* authors := dict_item pub_info "authors" in
    let* authors := as_str authors in
    let journal := dict_get_default pub_info "journal" (Some "") in
    let* year := dict_item pub_info "year" in
    let volume := dict_get_default pub_info "volume" None in
    let number := dict_get_default pub_info "number" None in
    let pages := dict_get_default pub_info "pages" None in
    let* doi := dict_item pub_info "doi" in
    Ok (create_article citation_key title authors journal year volume
                       number pages doi)
  else if String.eqb entry_type "inproceedings" then
    let* authors := dict_item pub_info "authors" in
    let* authors := as_str authors in
    let* title := dict_item pub_info "title" in
    let booktitle := dict_get_default pub_info "container-title" None in
    let* year := dict_item pub_info "year" in
    let* pages := subscript_method "pages" in
    let* location := subscript_method "location" in
    let* doi := dict_item pub_info "doi" in
    Ok (create_inproceeding citation_key title authors booktitle year
                            pages location doi)
  else Ok (_create_entry entry_type citation_key pub_info).

Section Fetch.

(** The registry: what a request to a URL gives. *)
Variable crossref : string -> response.

Definition requests_get (url : string) : io response :=
  fun log => (Ok (crossref url), (log ++ [url])%list).

Definition fetch_from_doi (doi : string) : io (dict (option string)) :=
  let crossref_url := "https://api.crossref.org/works/" ++ doi in
  resp <- requests_get crossref_url ;;
  match resp with
  | RequestException msg =>
      lift (Raise (Exception ("Error fetching DOI information: " ++ msg)))
  | Message data => lift (publication_info data doi)
  end.

Definition generate_from_identifier (identifier : string) : io string :=
  doi <- lift (identifier_doi identifier) ;;
  pub_info <- fetch_from_doi doi ;;
  citation_key <- lift (citation_key_of pub_info) ;;
  lift (entry_of pub_info citation_key).

End Fetch.

End IEEEBibTeX.

(** ** The serializer and the kind selection as the specification words them *)

Module Spec.

Import PyStr IEEEBibTeX.

(** The fields that have a value, in mapping order. *)
Definition emitted (fields : dict (option string)) : dict (option string) :=
  filter (fun kv => truthy (snd kv)) fields.

(** The value kept for an optional field: nothing unless it is a text that
    is not empty. *)
Definition kept (v : option string) : option string :=
  if truthy v then v else None.

(** [  <name> = {<value>}], the line of a field without what ends it. *)
Definition field_line (kv : string * option string) : string :=
  "  " ++ fst kv ++ " = {" ++ format (snd kv) ++ "}".

Fixpoint lines (fields : dict (option string)) : string :=
  match fields with
  | [] => EmptyString
  | kv :: rest => field_line kv ++ "," ++ nl ++ lines rest
  end.

(** The text without its last two characters, the comma and the newline
    that end the last line. *)
Definition strip_comma_newline (s : string) : string :=
  String.substring 0 (String.length s - 2) s.

(** Section 4.4, output shape. *)
Definition render (entry_type citation_key : string)
           (fields : dict (option string)) : string :=
  strip_comma_newline
    ("@" ++ entry_type ++ "{" ++ citation_key ++ "," ++ nl
         ++ lines (emitted fields))
    ++ nl ++ "}".


(** Section 4.1: the identifier begins with an http(s) scheme, [http:] or
    [https:]. *)
Definition has_http_scheme (identifier : string) : bool :=
  startswith identifier "http:" || startswith identifier "https:".

End Spec.

(** ** Records and registries used as concrete inputs *)

Module Samples.

Definition john_doe : Author :=
  {| given := Some "John"; family := Some "Doe" |}.

(** The record of the end-to-end test, with its type as a parameter. *)
Definition record_of_type (ty : option string) : RawRecord :=
  {| title := Some ["Test Article"];
     author := Some [john_doe];
     published_print := Some {| date_parts := Some [[Some 2024%Z]] |};
     type := ty;
     container_title := Some ["Test Journal"];
     volume := None;
     issue := None;
     page := None |}.

Definition journal_record : RawRecord :=
  record_of_type (Some "journal-article").

Definition book_record : RawRecord := record_of_type (Some "book").

Definition proceedings_record : RawRecord :=
  record_of_type (Some "proceedings-article").

(** The same article with no print-publication date. *)
Definition undated_record : RawRecord :=
  {| title := Some ["Test Article"];
     author := Some [john_doe];
     published_print := None;
     type := Some "journal-article";
     container_title := Some ["Test Journal"];
     volume := None;
     issue := None;
     page := None |}.

(** The same article with an empty author list. *)
Definition anonymous_record : RawRecord :=
  {| title := Some ["Test Article"];
     author := Some [];
     published_print := Some {| date_parts := Some [[Some 2024%Z]] |};
     type := Some "journal-article";
     container_title := Some ["Test Journal"];
     volume := None;
     issue := None;
     page := None |}.

(** The same article with no title. *)
Definition untitled_record : RawRecord :=
  {| title := None;
     author := Some [john_doe];
     published_print := Some {| date_parts := Some [[Some 2024%Z]] |};
     type := Some "journal-article";
     container_title := Some ["Test Journal"];
     volume := None;
     issue := None;
     page := None |}.

(** A registry that answers every request with the same record. *)
Definition registry (data : RawRecord) : string -> response :=
  fun _ => Message data.

Definition example_doi : string := "10.1234/example.123".

(** The field mapping of the serializer test. *)
Definition example_fields : dict (option string) :=
  [ ("author", Some "John Doe");
    ("title", Some "Analysis of Something");
    ("journal", Some "Journal of Things");
    ("year", Some "2024");
    ("volume", Some "1");
    ("number", Some "2");
    ("pages", Some "34-45") ].

Definition example_text : string :=
  "@article{doe2024analysis," ++ PyStr.nl
  ++ "  author = {John Doe}," ++ PyStr.nl
  ++ "  title = {Analysis of Something}," ++ PyStr.nl
  ++ "  journal = {Journal of Things}," ++ PyStr.nl
  ++ "  year = {2024}," ++ PyStr.nl
  ++ "  volume = {1}," ++ PyStr.nl
  ++ "  number = {2}," ++ PyStr.nl
  ++ "  pages = {34-45}" ++ PyStr.nl
  ++ "}".

End Samples.

(** ** Further inputs and notions for the properties beyond the claims *)

Module Fixtures.

(** The text [fetch_from_doi] writes for one author:
    [f"{author.get('given', '')} {author.get('family', '')}"]. *)
Definition full_name (a : Author) : string :=
  (match given a with Some s => s | None => "" end)
    ++ " " ++ (match family a with Some s => s | None => "" end).

(** The author list of a record, [data.get('author', [])]. *)
Definition author_list (data : RawRecord) : list Author :=
  match author data with
  | Some l => l
  | None => []
  end.

(** The rows of [date-parts] that [fetch_from_doi] indexes. *)
Definition date_rows (data : RawRecord) : list (list (option Z)) :=
  match published_print data with
  | None => [[None]]
  | Some d =>
      match date_parts d with
      | None => [[None]]
      | Some p => p
      end
  end.

(** A registry that is out of reach. *)
Definition offline : string -> response :=
  fun _ => RequestException "API Error".

(** A record with two authors, the second without a given name. *)
Definition two_author_record : RawRecord :=
  {| title := Some ["Deep  Learning, revisited"];
     author := Some [ {| given := Some "Ada B."; family := Some "Lovelace" |};
                      {| given := None; family := Some "Turing" |} ];
     published_print := Some {| date_parts := Some [[Some 1950%Z; Some 10%Z]] |};
     type := Some "journal-article";
     container_title := Some ["Mind"; "MIND"];
     volume := Some "59";
     issue := Some "";
     page := Some "433-460" |}.

(** A record whose title list is empty. *)
Definition empty_title_record : RawRecord :=
  {| title := Some [];
     author := Some [Samples.john_doe];
     published_print := Some {| date_parts := Some [[Some 2024%Z]] |};
     type := Some "journal-article";
     container_title := None;
     volume := None;
     issue := None;
     page := None |}.

End Fixtures.

(** * Properties *)

Import PyStr IEEEBibTeX.

(** ** Strings *)

Section StringFacts.

Lemma append_assoc (a b c : string) : (a ++ b) ++ c = a ++ b ++ c.
Proof. induction a as [|x a IH]; simpl; [reflexivity | now rewrite IH]. Qed.

Lemma append_empty_r (a : string) : a ++ "" = a.
Proof. induction a as [|x a IH]; simpl; [reflexivity | now rewrite IH]. Qed.

Lemma length_append (a b : string) :
  String.length (a ++ b) = String.length a + String.length b.
Proof. induction a as [|x a IH]; simpl; [reflexivity | now rewrite IH]. Qed.

Lemma substring_prefix (a b : string) :
  String.substring 0 (String.length a) (a ++ b) = a.
Proof.
  induction a as [|x a IH]; simpl.
  - destruct b; reflexivity.
  - now rewrite IH.
Qed.

Lemma count_append (c : ascii) (a b : string) :
  count c (a ++ b) = count c a + count c b.
Proof. induction a as [|x a IH]; simpl; [reflexivity | rewrite IH; lia]. Qed.

Lemma forallb_append (p : ascii -> bool) (a b : string) :
  forallb p (a ++ b) = forallb p a && forallb p b.
Proof.
  induction a as [|x a IH]; simpl; [reflexivity |].
  now rewrite IH, andb_assoc.
Qed.

(** [rstrip] sees the end of the text first. *)
Lemma rstrip_append (p : ascii -> bool) (a b : string) :
  rstrip p (a ++ b) =
  match rstrip p b with
  | EmptyString => rstrip p a
  | r => a ++ r
  end.
Proof.
  induction a as [|x a IH]; simpl.
  - destruct (rstrip p b); reflexivity.
  - rewrite IH. destruct (rstrip p b) as [|y r]; [reflexivity |].
    destruct a; reflexivity.
Qed.

Lemma rstrip_all (p : ascii -> bool) (b : string) :
  forallb p b = true -> rstrip p b = "".
Proof.
  induction b as [|x b IH]; simpl; [reflexivity |].
  intros H. apply andb_prop in H as [Hx Hb].
  now rewrite (IH Hb), Hx.
Qed.

Lemma rstrip_kept (p : ascii -> bool) (a : string) (c : ascii) :
  p c = false -> rstrip p (a ++ String c "") = a ++ String c "".
Proof.
  intros H. rewrite rstrip_append. simpl. now rewrite H.
Qed.

Lemma rstrip_suffix (p : ascii -> bool) (a b : string) :
  forallb p b = true -> rstrip p (a ++ b) = rstrip p a.
Proof.
  intros H. rewrite rstrip_append. now rewrite (rstrip_all p b H).
Qed.

End StringFacts.

(** Appends in right-nested form, literal prefixes unfolded. *)
Ltac norm_append :=
  unfold nl; cbn [append]; repeat (rewrite !append_assoc; cbn [append]).

Lemma rstrip_fixed (p : ascii -> bool) (s : string) :
  last_in p s = false -> rstrip p s = s.
Proof.
  induction s as [|c s IH]; [reflexivity |].
  destruct s as [|d s].
  - simpl. now intros ->.
  - intros H. change (last_in p (String c (String d s))) with
      (last_in p (String d s)) in H.
    change (rstrip p (String c (String d s))) with
      (match rstrip p (String d s) with
       | EmptyString => if p c then EmptyString else String c EmptyString
       | r => String c r
       end).
    now rewrite (IH H).
Qed.

(** ** The serializer *)

Section Serializer.

Let commas : ascii -> bool := char_in ("," ++ nl).

Lemma fold_fields (fields : dict (option string)) (entry : string) :
  fold_left
    (fun entry kv =>
       let '(key, value) := kv in
       if truthy value
       then entry ++ "  " ++ key ++ " = {" ++ format value ++ "}," ++ nl
       else entry)
    fields entry
  = entry ++ Spec.lines (Spec.emitted fields).
Proof.
  revert entry.
  induction fields as [|[key value] fields IH]; intros entry; simpl.
  - now rewrite append_empty_r.
  - destruct (truthy value); simpl; rewrite IH; [| reflexivity].
    unfold Spec.field_line. now norm_append.
Qed.

Lemma create_entry_lines (t k : string) (fields : dict (option string)) :
  _create_entry t k fields =
  rstrip commas ("@" ++ t ++ "{" ++ k ++ "," ++ nl
                     ++ Spec.lines (Spec.emitted fields))
    ++ nl ++ "}".
Proof.
  unfold _create_entry. rewrite fold_fields.
  now norm_append.
Qed.

Lemma emitted_idem (fields : dict (option string)) :
  Spec.emitted (Spec.emitted fields) = Spec.emitted fields.
Proof.
  unfold Spec.emitted. induction fields as [|kv fields IH]; simpl.
  - reflexivity.
  - destruct (truthy (snd kv)) eqn:E; simpl; [rewrite E, IH |]; auto.
Qed.

(** Fields without a value leave no trace in the output. *)
Lemma create_entry_skips (t k : string) (fields : dict (option string)) :
  _create_entry t k fields = _create_entry t k (Spec.emitted fields).
Proof. now rewrite !create_entry_lines, emitted_idem. Qed.

Lemma lines_join (kv : string * option string) (rest : dict (option string)) :
  Spec.lines (kv :: rest) =
  join ("," ++ nl) (map Spec.field_line (kv :: rest)) ++ "," ++ nl.
Proof.
  revert kv. induction rest as [|kv' rest IH]; intros kv.
  - unfold join. cbn [Spec.lines String.concat map]. now norm_append.
  - change (Spec.lines (kv :: kv' :: rest)) with
      (Spec.field_line kv ++ "," ++ nl ++ Spec.lines (kv' :: rest)).
    rewrite IH.
    change (join ("," ++ nl) (map Spec.field_line (kv :: kv' :: rest))) with
      (Spec.field_line kv ++ ("," ++ nl)
         ++ join ("," ++ nl) (map Spec.field_line (kv' :: rest))).
    now norm_append.
Qed.

Lemma join_lines_end (kv : string * option string)
      (rest : dict (option string)) :
  exists x, join ("," ++ nl) (map Spec.field_line (kv :: rest)) = x ++ "}".
Proof.
  revert kv. induction rest as [|kv' rest IH]; intros kv.
  - exists ("  " ++ fst kv ++ " = {" ++ format (snd kv)).
    simpl. unfold Spec.field_line. now norm_append.
  - destruct (IH kv') as [x Hx].
    exists (Spec.field_line kv ++ ("," ++ nl) ++ x).
    change (join ("," ++ nl) (map Spec.field_line (kv :: kv' :: rest))) with
      (Spec.field_line kv ++ ("," ++ nl)
         ++ join ("," ++ nl) (map Spec.field_line (kv' :: rest))).
    rewrite Hx. now norm_append.
Qed.

Lemma strip_comma_newline_end (y : string) :
  Spec.strip_comma_newline (y ++ "," ++ nl) = y.
Proof.
  unfold Spec.strip_comma_newline.
  rewrite length_append. simpl String.length.
  replace (String.length y + 2 - 2) with (String.length y) by lia.
  apply substring_prefix.
Qed.

Lemma commas_end (y : string) :
  last_in commas y = false -> rstrip commas (y ++ "," ++ nl) = y.
Proof.
  intros H. rewrite rstrip_suffix by reflexivity. now apply rstrip_fixed.
Qed.

Lemma last_in_append (p : ascii -> bool) (x : string) (c : ascii) :
  last_in p (x ++ String c "") = p c.
Proof.
  induction x as [|d x IH]; [reflexivity |].
  simpl. rewrite IH. destruct x; reflexivity.
Qed.

Lemma entry_text_end (t k : string) (kv : string * option string)
      (rest : dict (option string)) :
  let y := "@" ++ t ++ "{" ++ k ++ "," ++ nl
               ++ join ("," ++ nl) (map Spec.field_line (kv :: rest)) in
  "@" ++ t ++ "{" ++ k ++ "," ++ nl ++ Spec.lines (kv :: rest)
  = y ++ "," ++ nl
  /\ last_in commas y = false.
Proof.
  intros y. subst y. split.
  - rewrite lines_join. now norm_append.
  - destruct (join_lines_end kv rest) as [x ->].
    replace ("@" ++ t ++ "{" ++ k ++ "," ++ nl ++ x ++ "}")
      with (("@" ++ t ++ "{" ++ k ++ "," ++ nl ++ x) ++ "}")
      by now norm_append.
    now rewrite last_in_append.
Qed.

(** With a field to print, the code and the specified shape agree. *)
Lemma create_entry_some (t k : string) (fields : dict (option string)) :
  Spec.emitted fields <> [] ->
  _create_entry t k fields
  = "@" ++ t ++ "{" ++ k ++ "," ++ nl
        ++ join ("," ++ nl) (map Spec.field_line (Spec.emitted fields))
        ++ nl ++ "}"
  /\ Spec.render t k fields = _create_entry t k fields.
Proof.
  intros H. rewrite create_entry_lines. unfold Spec.render.
  destruct (Spec.emitted fields) as [|kv rest]; [congruence |].
  destruct (entry_text_end t k kv rest) as [-> Hlast].
  rewrite strip_comma_newline_end, (commas_end _ Hlast).
  split; [now norm_append | reflexivity].
Qed.

(** Without one, the comma after the key goes, and with it every comma and
    newline the key ends with. *)
Lemma create_entry_none (t k : string) (fields : dict (option string)) :
  Spec.emitted fields = [] ->
  _create_entry t k fields = "@" ++ t ++ "{" ++ rstrip commas k ++ nl ++ "}".
Proof.
  intros H. rewrite create_entry_lines, H. cbn [Spec.lines].
  replace ("@" ++ t ++ "{" ++ k ++ "," ++ nl ++ "")
    with ((("@" ++ t ++ "{") ++ k) ++ "," ++ nl) by now norm_append.
  rewrite rstrip_suffix by reflexivity.
  rewrite rstrip_append.
  destruct (rstrip commas k) as [|c r] eqn:E.
  - replace ("@" ++ t ++ "{") with (("@" ++ t) ++ "{") by now norm_append.
    rewrite rstrip_kept by reflexivity. now norm_append.
  - now norm_append.
Qed.

Lemma emitted_none (fields : dict (option string)) :
  List.forallb (fun kv => negb (truthy (snd kv))) fields = true ->
  Spec.emitted fields = [].
Proof.
  unfold Spec.emitted. induction fields as [|kv fields IH]; simpl.
  - reflexivity.
  - intros H. apply andb_prop in H as [Hkv Hrest].
    apply negb_true_iff in Hkv. now rewrite Hkv, IH.
Qed.

End Serializer.

(** Without a field to print, the code and the specified shape agree for a
    key that ends with neither a comma nor a newline. *)
Lemma create_entry_bare (t k : string) (fields : dict (option string)) :
  Spec.emitted fields = [] ->
  last_in (char_in ("," ++ nl)) k = false ->
  _create_entry t k fields = Spec.render t k fields.
Proof.
  intros H Hk. rewrite (create_entry_none t k fields H).
  rewrite (rstrip_fixed _ _ Hk).
  unfold Spec.render. rewrite H. cbn [Spec.lines].
  replace ("@" ++ t ++ "{" ++ k ++ "," ++ nl ++ "")
    with (("@" ++ t ++ "{" ++ k) ++ "," ++ nl) by now norm_append.
  rewrite strip_comma_newline_end. now norm_append.
Qed.

(** C3, as the code has it.  Whenever a field has a value, or the citation
    key ends with neither a comma nor a newline, the serializer writes
    [@<entry type>{<citation key>,], then for every field with a value, in
    mapping order, the line [  <name> = {<value>},], the comma that ends the
    last line removed, and a closing brace on a line of its own; with a
    field to print this is the header, the lines separated by a comma and a
    newline, and the brace.  For every input, a field whose value is [None]
    or empty leaves no line.  On the Article mapping of the serializer test
    the output is the quoted text. *)
Theorem create_entry_shape :
  (forall (t k : string) (fields : dict (option string)),
      Spec.emitted fields <> [] \/ last_in (char_in ("," ++ nl)) k = false ->
      _create_entry t k fields = Spec.render t k fields)
  /\ (forall (t k : string) (fields : dict (option string)),
         Spec.emitted fields <> [] ->
         _create_entry t k fields
         = "@" ++ t ++ "{" ++ k ++ "," ++ nl
               ++ join ("," ++ nl) (map Spec.field_line (Spec.emitted fields))
               ++ nl ++ "}")
  /\ (forall (t k : string) (fields : dict (option string)),
         _create_entry t k fields = _create_entry t k (Spec.emitted fields))
  /\ _create_entry "article" "doe2024analysis" Samples.example_fields
     = Samples.example_text.
Proof.
  split; [| split; [| split]].
  - intros t k fields H.
    destruct (Spec.emitted fields) as [|kv rest] eqn:E.
    + destruct H as [H | H]; [congruence |].
      now apply create_entry_bare.
    + assert (Hne : Spec.emitted fields <> []) by (rewrite E; discriminate).
      now destruct (create_entry_some t k fields Hne) as [_ ->].
  - intros t k fields H.
    now destruct (create_entry_some t k fields H) as [Hjoin _].
  - exact create_entry_skips.
  - reflexivity.
Qed.

Lemma create_entry_shape_witness :
  _create_entry "article" "doe2024analysis" Samples.example_fields
  = Spec.render "article" "doe2024analysis" Samples.example_fields
  /\ _create_entry "article" "doe2024analysis" [("volume", None)]
     = Spec.render "article" "doe2024analysis" [("volume", None)]
  /\ _create_entry "article" "doe2024analysis" Samples.example_fields
     = "@" ++ "article" ++ "{" ++ "doe2024analysis" ++ "," ++ nl
           ++ join ("," ++ nl)
                   (map Spec.field_line (Spec.emitted Samples.example_fields))
           ++ nl ++ "}".
Proof.
  assert (H : Spec.emitted Samples.example_fields <> []) by discriminate.
  split; [| split].
  - exact (proj1 create_entry_shape
                 "article" "doe2024analysis" Samples.example_fields
                 (or_introl H)).
  - exact (proj1 create_entry_shape
                 "article" "doe2024analysis" [("volume", None)]
                 (or_intror eq_refl)).
  - exact (proj1 (proj2 create_entry_shape)
                 "article" "doe2024analysis" Samples.example_fields H).
Defined.

(** C3, as stated, fails for the empty mapping and a citation key that ends
    with a comma: the stated shape keeps the comma of the key, the code
    removes it with the one that follows the key. *)
Lemma create_entry_shape_counterexample :
  Spec.emitted [] = []
  /\ last_in (char_in ("," ++ nl)) "k," = true
  /\ Spec.render "article" "k," [] = "@article{k," ++ nl ++ "}"
  /\ _create_entry "article" "k," [] = "@article{k" ++ nl ++ "}"
  /\ _create_entry "article" "k," [] <> Spec.render "article" "k," [].
Proof.
  repeat split; try reflexivity.
  vm_compute. discriminate.
Qed.

(** C9, as the code has it.  When no field has a value the output is
    [@<entry type>{], the citation key without the commas and newlines it
    ends with, a newline and the closing brace; for a key that ends with
    neither, this is [@<entry type>{<citation key>], newline, brace.  The
    serializer is a total function: it never raises. *)
Theorem create_entry_no_fields (t k : string) (fields : dict (option string)) :
  List.forallb (fun kv => negb (truthy (snd kv))) fields = true ->
  _create_entry t k fields
  = "@" ++ t ++ "{" ++ rstrip (char_in ("," ++ nl)) k ++ nl ++ "}"
  /\ (last_in (char_in ("," ++ nl)) k = false ->
      _create_entry t k fields = "@" ++ t ++ "{" ++ k ++ nl ++ "}").
Proof.
  intros H. apply emitted_none in H.
  rewrite (create_entry_none t k fields H).
  split; [reflexivity |].
  intros Hk. now rewrite (rstrip_fixed _ _ Hk).
Qed.

Lemma create_entry_no_fields_witness :
  _create_entry "article" "doe2024analysis"
                [("volume", None); ("pages", Some "")]
  = "@article{doe2024analysis" ++ nl ++ "}".
Proof.
  exact (proj1 (create_entry_no_fields
                  "article" "doe2024analysis"
                  [("volume", None); ("pages", Some "")] eq_refl)).
Defined.

(** C9, as stated, fails for a citation key that ends with a comma: the
    output is not [@article{k,] followed by a newline and a brace. *)
Lemma create_entry_no_fields_counterexample :
  let fields : dict (option string) := [("volume", None); ("pages", Some "")] in
  List.forallb (fun kv => negb (truthy (snd kv))) fields = true
  /\ _create_entry "article" "k," fields = "@article{k" ++ nl ++ "}"
  /\ _create_entry "article" "k," fields
     <> "@article{" ++ "k," ++ nl ++ "}".
Proof.
  cbv zeta. split; [reflexivity | split; [reflexivity | discriminate]].
Qed.

(** ** Author lists *)

Section Authors.

Lemma split_on_whole (sep : ascii) (a : string) :
  count sep a = 0 -> split_on sep a = [a].
Proof.
  induction a as [|c a IH]; simpl; [reflexivity |].
  destruct (Ascii.eqb c sep); [discriminate |].
  intros H. now rewrite (IH H).
Qed.

Lemma split_on_first (sep : ascii) (a b : string) :
  count sep a = 0 ->
  split_on sep (a ++ String sep b) = a :: split_on sep b.
Proof.
  induction a as [|c a IH]; simpl.
  - now rewrite Ascii.eqb_refl.
  - destruct (Ascii.eqb c sep); [discriminate |].
    intros H. now rewrite (IH H).
Qed.

(** Splitting at the commas undoes joining with commas. *)
Lemma split_on_join (sep : ascii) (a : string) (names : list string) :
  Forall (fun n => count sep n = 0) (a :: names) ->
  split_on sep (join (String sep "") (a :: names)) = a :: names.
Proof.
  revert a. induction names as [|b names IH]; intros a H.
  - apply split_on_whole. now inversion H.
  - change (join (String sep "") (a :: b :: names)) with
      (a ++ String sep (join (String sep "") (b :: names))).
    inversion H as [|? ? Ha Hrest]; subst.
    now rewrite (split_on_first _ _ _ Ha), (IH b Hrest).
Qed.

Lemma lstrip_spec (p : ascii -> bool) (s : string) :
  exists l, s = l ++ lstrip p s
            /\ forallb p l = true /\ first_in p (lstrip p s) = false.
Proof.
  induction s as [|c s (l & Hs & Hl & Hf)]; simpl.
  - now exists "".
  - destruct (p c) eqn:E.
    + exists (String c l). simpl. rewrite E, Hl. split; [congruence | now split].
    + exists "". simpl. now rewrite E.
Qed.

Lemma rstrip_spec (p : ascii -> bool) (s : string) :
  exists r, s = rstrip p s ++ r
            /\ forallb p r = true /\ last_in p (rstrip p s) = false.
Proof.
  induction s as [|c s (r & Hs & Hr & Hl)]; simpl.
  - now exists "".
  - destruct (rstrip p s) as [|d t] eqn:E.
    + simpl in Hs. destruct (p c) eqn:Ec.
      * exists (String c r). simpl. rewrite Ec, Hr. now subst s.
      * exists r. simpl. rewrite Ec. now subst s.
    + exists r. split; [simpl in Hs |- *; congruence | now split].
Qed.

Lemma rstrip_first (p : ascii -> bool) (s : string) :
  first_in p s = false -> first_in p (rstrip p s) = false.
Proof.
  destruct s as [|c s]; simpl; [reflexivity |].
  destruct (rstrip p s); [| now simpl].
  intros H. now rewrite H.
Qed.

(** [strip] removes whitespace at both ends, all of it, and nothing else. *)
Lemma strip_spec (s : string) :
  exists l r,
    s = l ++ strip s ++ r
    /\ forallb isspace l = true /\ forallb isspace r = true
    /\ first_in isspace (strip s) = false
    /\ last_in isspace (strip s) = false.
Proof.
  unfold strip.
  destruct (lstrip_spec isspace s) as (l & Hs & Hl & Hf).
  destruct (rstrip_spec isspace (lstrip isspace s)) as (r & Ht & Hr & Hlast).
  exists l, r. rewrite <- Ht.
  repeat split; auto using rstrip_first.
Qed.

End Authors.

(** C8. For every list of one or more author names, given to
    [_format_authors] as the text that separates them by commas, the result
    is the names joined by [" and "], each without the whitespace around it,
    however much there was: each name is whitespace, the printed name,
    whitespace, and the printed name neither starts nor ends with
    whitespace. *)
Theorem format_authors_join (names : list string) :
  names <> [] ->
  Forall (fun n => count "," n = 0) names ->
  _format_authors (join "," names) = join " and " (map strip names)
  /\ Forall (fun n => exists l r,
                 n = l ++ strip n ++ r
                 /\ forallb isspace l = true /\ forallb isspace r = true
                 /\ first_in isspace (strip n) = false
                 /\ last_in isspace (strip n) = false) names.
Proof.
  intros Hne Hcommas. split.
  - destruct names as [|a names]; [congruence |].
    unfold _format_authors. now rewrite split_on_join.
  - apply Forall_forall. intros n _. apply strip_spec.
Qed.

Lemma format_authors_join_witness :
  _format_authors "John Doe ,  Jane Smith,Bob Wilson  "
  = "John Doe and Jane Smith and Bob Wilson".
Proof.
  refine (proj1 (format_authors_join
                   ["John Doe "; "  Jane Smith"; "Bob Wilson  "] _ _)).
  - discriminate.
  - repeat constructor.
Defined.

(** ** DOI extraction *)

Section Extraction.

Let no_space (c : ascii) : bool := negb (isspace c).

Lemma star_sound (p : ascii -> bool) (k : string -> option string)
      (s d : string) :
  Re.star p k s = Some d ->
  exists w s', s = w ++ s' /\ forallb p w = true /\ k s' = Some d.
Proof.
  induction s as [|c s IH]; simpl; intros H.
  - now exists "", "".
  - destruct (p c) eqn:E; [| now exists "", (String c s)].
    destruct (Re.star p k s) as [r|] eqn:Es.
    + destruct (IH H) as (w & s' & -> & Hw & Hk).
      exists (String c w), s'. simpl. now rewrite E, Hw.
    + now exists "", (String c s).
Qed.

(** A flat prefix of a pattern consumes a text of its language and leaves
    the group untouched. *)
Lemma match_flat (r1 : list Re.item) :
  Re.flat r1 ->
  forall (r2 : list Re.item) (g cap s d : string),
    Re.match_here (r1 ++ r2)%list g cap s = Some d ->
    exists w s',
      s = w ++ s' /\ Re.lang r1 w /\ Re.match_here r2 g cap s' = Some d.
Proof.
  induction r1 as [|[c|p| |] r1 IH]; simpl; intros Hflat r2 g cap s d H;
    try contradiction.
  - now exists "", s.
  - destruct s as [|a s]; [discriminate |].
    destruct (Ascii.eqb_spec a c) as [->|]; [| discriminate].
    destruct (IH Hflat _ _ _ _ _ H) as (w & s' & -> & Hw & Hk).
    exists (String c w), s'. repeat split; eauto.
  - destruct s as [|a s]; [discriminate |].
    destruct (p a) eqn:E; [| discriminate].
    destruct (star_sound _ _ _ _ H) as (w1 & s1 & -> & Hw1 & H1).
    destruct (IH Hflat _ _ _ _ _ H1) as (w2 & s2 & -> & Hw2 & H2).
    exists (String a (w1 ++ w2)), s2. split; [| split; [| exact H2]].
    + simpl. now rewrite append_assoc.
    + now exists a, w1, w2.
Qed.

Lemma captured_append (w s : string) : Re.captured (w ++ s) s = w.
Proof.
  unfold Re.captured. rewrite length_append.
  replace (String.length w + String.length s - String.length s)
    with (String.length w) by lia.
  apply substring_prefix.
Qed.

(** A pattern that ends with its group gives a part of the input, in the
    language of the group. *)
Lemma group_sound (pre grp : list Re.item) (g cap s d : string) :
  Re.flat pre -> Re.flat grp ->
  Re.match_here (pre ++ Re.Open :: grp ++ [Re.Close])%list g cap s = Some d ->
  exists w s', s = w ++ d ++ s' /\ Re.lang grp d.
Proof.
  intros Hpre Hgrp H.
  destruct (match_flat pre Hpre _ _ _ _ _ H) as (w & s1 & -> & _ & H1).
  simpl in H1.
  destruct (match_flat grp Hgrp _ _ _ _ _ H1) as (w2 & s2 & -> & Hw2 & H2).
  simpl in H2. rewrite captured_append in H2. injection H2 as <-.
  now exists w, s2.
Qed.

Lemma search_sound (r : list Re.item) (s d : string) :
  Re.search r s = Some d ->
  exists w s', s = w ++ s' /\ Re.match_here r "" "" s' = Some d.
Proof.
  induction s as [|c s IH]; simpl; intros H.
  - destruct (Re.match_here r "" "" "") eqn:E; [| discriminate].
    exists "", "". now rewrite E.
  - destruct (Re.match_here r "" "" (String c s)) eqn:E.
    + exists "", (String c s). now rewrite E.
    + destruct (IH H) as (w & s' & -> & Hm).
      now exists (String c w), s'.
Qed.

Lemma search_group (pre grp : list Re.item) (s d : string) :
  Re.flat pre -> Re.flat grp ->
  Re.search (pre ++ Re.Open :: grp ++ [Re.Close])%list s = Some d ->
  exists w s', s = w ++ d ++ s' /\ Re.lang grp d.
Proof.
  intros Hpre Hgrp H.
  destruct (search_sound _ _ _ H) as (w & s1 & -> & Hm).
  destruct (group_sound _ _ _ _ _ _ Hpre Hgrp Hm) as (w' & s' & -> & Hd).
  exists (w ++ w'), s'. now rewrite append_assoc.
Qed.

Lemma class_slash_space (c : ascii) :
  Re.not_slash_space c = true -> Ascii.eqb c "/" = false /\ no_space c = true.
Proof.
  unfold Re.not_slash_space, no_space. intros H.
  apply andb_prop in H as [H1 H2]. now apply negb_true_iff in H1.
Qed.

Lemma class_text (p : ascii -> bool) (w : string) :
  (forall c, p c = true -> Re.not_slash_space c = true) ->
  forallb p w = true -> count "/" w = 0 /\ forallb no_space w = true.
Proof.
  intros Hp. induction w as [|c w IH]; simpl; [now split |].
  intros H. apply andb_prop in H as [Hc Hw].
  destruct (class_slash_space c (Hp c Hc)) as [-> ->].
  now destruct (IH Hw) as [-> ->].
Qed.

(** A text of a tidy pattern has the slashes the pattern spells out, and no
    whitespace. *)
Lemma lang_tidy (r : list Re.item) :
  Re.tidy r ->
  forall w, Re.lang r w ->
            count "/" w = Re.slashes r /\ forallb no_space w = true.
Proof.
  induction r as [|[c|p| |] r IH]; simpl; intros Ht w Hw; auto.
  - now subst w.
  - destruct Ht as [Hc Ht]. destruct Hw as (w' & -> & Hw').
    destruct (IH Ht _ Hw') as [Hn Hs]. simpl.
    unfold no_space at 1. now rewrite Hn, Hs, Hc.
  - destruct Ht as [Hp Ht]. destruct Hw as (a & w1 & w2 & -> & Ha & H1 & H2).
    destruct (IH Ht _ H2) as [Hn Hs].
    destruct (class_text p w1 Hp H1) as [Hn1 Hs1].
    destruct (class_slash_space a (Hp a Ha)) as [Ea Sa].
    simpl. now rewrite Ea, Sa, count_append, forallb_append, Hn1, Hs1, Hn, Hs.
Qed.

Lemma digit_class (c : ascii) :
  Re.digit c = true -> Re.not_slash_space c = true.
Proof.
  destruct c as [[] [] [] [] [] [] [] []]; vm_compute; congruence.
Qed.

End Extraction.

Section Priority.

Lemma star_complete (p : ascii -> bool) (k : string -> option string)
      (w s : string) :
  forallb p w = true -> k s <> None -> Re.star p k (w ++ s) <> None.
Proof.
  intros Hw Hk. induction w as [|c w IH]; simpl in *.
  - destruct s as [|c s]; simpl; [exact Hk |].
    destruct (p c); [| exact Hk].
    now destruct (Re.star p k s).
  - apply andb_prop in Hw as [-> Hw].
    specialize (IH Hw). now destruct (Re.star p k (w ++ s)).
Qed.

(** A text of the language of a pattern is matched where it starts. *)
Lemma match_complete (r : list Re.item) :
  forall (g cap w s : string),
    Re.lang r w -> Re.match_here r g cap (w ++ s) <> None.
Proof.
  induction r as [|[c|p| |] r IH]; simpl; intros g cap w s Hw; auto.
  - discriminate.
  - destruct Hw as (w' & -> & Hw'). simpl. rewrite Ascii.eqb_refl. auto.
  - destruct Hw as (a & w1 & w2 & -> & Ha & H1 & H2). simpl.
    rewrite Ha, append_assoc. apply star_complete; auto.
Qed.

Lemma search_complete (r : list Re.item) (w0 w s : string) :
  Re.lang r w -> Re.search r (w0 ++ w ++ s) <> None.
Proof.
  intros Hw. induction w0 as [|c w0 IH].
  - pose proof (match_complete r "" "" w s Hw) as H. simpl.
    destruct (w ++ s); simpl; now destruct (Re.match_here r "" "" _).
  - simpl. now destruct (Re.match_here r "" "" _).
Qed.

End Priority.

(** C6. [extract_doi_from_url] tries [doi.org/<segment>/<segment>], then
    [doi:<segment>/<segment>], then [<digits>.<digits>/<segment>], and
    returns the group of the first pattern found in the text: a text that
    holds a match of an earlier pattern is answered by that pattern, whatever
    the later ones would find.  The four inputs of the extraction test give
    ["10.1234/example.123"] three times and [None]. *)
Theorem extract_doi_priority :
  (forall url,
      extract_doi_from_url url =
      match Re.search doi_org_pattern url with
      | Some d => Some d
      | None =>
          match Re.search doi_colon_pattern url with
          | Some d => Some d
          | None => Re.search bare_pattern url
          end
      end)
  /\ (forall w x s,
         Re.lang doi_org_pattern x ->
         extract_doi_from_url (w ++ x ++ s)
         = Re.search doi_org_pattern (w ++ x ++ s)
         /\ extract_doi_from_url (w ++ x ++ s) <> None)
  /\ (forall w x s,
         Re.search doi_org_pattern (w ++ x ++ s) = None ->
         Re.lang doi_colon_pattern x ->
         extract_doi_from_url (w ++ x ++ s)
         = Re.search doi_colon_pattern (w ++ x ++ s)
         /\ extract_doi_from_url (w ++ x ++ s) <> None)
  /\ extract_doi_from_url "https://doi.org/10.1234/example.123"
     = Some "10.1234/example.123"
  /\ extract_doi_from_url "https://example.com/article/doi:10.1234/example.123"
     = Some "10.1234/example.123"
  /\ extract_doi_from_url "https://example.com/10.1234/example.123"
     = Some "10.1234/example.123"
  /\ extract_doi_from_url "https://invalid-url.com" = None
  /\ extract_doi_from_url "https://doi.org/10.1/a doi:10.2/b" = Some "10.1/a"
  /\ extract_doi_from_url "http://x.org/10.5/abc?ref=doi:10.7/def"
     = Some "10.7/def".
Proof.
  assert (Hshape : forall url,
      extract_doi_from_url url =
      match Re.search doi_org_pattern url with
      | Some d => Some d
      | None =>
          match Re.search doi_colon_pattern url with
          | Some d => Some d
          | None => Re.search bare_pattern url
          end
      end).
  { intros url. unfold extract_doi_from_url, doi_patterns. cbn [first_match].
    destruct (Re.search doi_org_pattern url); [reflexivity |].
    destruct (Re.search doi_colon_pattern url); [reflexivity |].
    now destruct (Re.search bare_pattern url). }
  split; [exact Hshape |].
  split; [| split].
  - intros w x s Hx. rewrite Hshape.
    pose proof (search_complete doi_org_pattern w x s Hx) as H.
    destruct (Re.search doi_org_pattern (w ++ x ++ s)); [| contradiction].
    split; [reflexivity | discriminate].
  - intros w x s Hnone Hx. rewrite Hshape, Hnone.
    pose proof (search_complete doi_colon_pattern w x s Hx) as H.
    destruct (Re.search doi_colon_pattern (w ++ x ++ s)); [| contradiction].
    split; [reflexivity | discriminate].
  - repeat split; vm_compute; reflexivity.
Qed.

Lemma extract_doi_priority_witness :
  extract_doi_from_url ("https://" ++ "doi.org/10.1234/example.123" ++ "")
  = Re.search doi_org_pattern
              ("https://" ++ "doi.org/10.1234/example.123" ++ "").
Proof.
  refine (proj1 (proj1 (proj2 extract_doi_priority)
                       "https://" "doi.org/10.1234/example.123" "" _)).
  cbn.
  repeat (eexists; split; [reflexivity |]).
  exists "1"%char, "0.1234", "/example.123".
  repeat split.
  exists "example.123". split; [reflexivity |].
  exists "e"%char, "xample.123", "". repeat split.
Defined.

(** C10. A DOI returned by [extract_doi_from_url] is a part of the input,
    in one piece, holds no whitespace and exactly one slash. *)
Theorem extract_doi_substring (url d : string) :
  extract_doi_from_url url = Some d ->
  (exists pre post, url = pre ++ d ++ post)
  /\ forallb (fun c => negb (isspace c)) d = true
  /\ count "/" d = 1.
Proof.
  intros H.
  pose (pair := [Re.Plus Re.not_slash_space; Re.Chr "/";
                 Re.Plus Re.not_slash_space]).
  pose (bare := [Re.Plus Re.digit; Re.Chr "."; Re.Plus Re.digit;
                 Re.Chr "/"; Re.Plus Re.not_slash_space]).
  assert (Hpair : Re.tidy pair) by (simpl; auto).
  assert (Hbare : Re.tidy bare) by (simpl; auto 10 using digit_class).
  unfold extract_doi_from_url, doi_patterns in H. cbn [first_match] in H.
  destruct (Re.search doi_org_pattern url) as [d1|] eqn:E1.
  { injection H as ->.
    destruct (search_group (Re.lit "doi.org/") pair url d I I E1)
      as (w & s & -> & Hd).
    destruct (lang_tidy _ Hpair d Hd) as [Hn Hs]. eauto. }
  destruct (Re.search doi_colon_pattern url) as [d2|] eqn:E2.
  { injection H as ->.
    destruct (search_group (Re.lit "doi:") pair url d I I E2)
      as (w & s & -> & Hd).
    destruct (lang_tidy _ Hpair d Hd) as [Hn Hs]. eauto. }
  destruct (Re.search bare_pattern url) as [d3|] eqn:E3; [| discriminate].
  injection H as ->.
  destruct (search_group [] bare url d I I E3) as (w & s & -> & Hd).
  destruct (lang_tidy _ Hbare d Hd) as [Hn Hs]. eauto.
Qed.

Lemma extract_doi_substring_witness :
  (exists pre post,
      "https://doi.org/10.1234/example.123"
      = pre ++ "10.1234/example.123" ++ post)
  /\ forallb (fun c => negb (isspace c)) "10.1234/example.123" = true
  /\ count "/" "10.1234/example.123" = 1.
Proof.
  exact (extract_doi_substring "https://doi.org/10.1234/example.123"
                               "10.1234/example.123" eq_refl).
Defined.

(** ** The pipeline of [generate_from_identifier] *)

Section Pipeline.

Variable crossref : string -> response.

(** The call, step by step: the DOI, the one request, the entry. *)
Lemma generate_steps (identifier : string) (log : list string) :
  generate_from_identifier crossref identifier log =
  match identifier_doi identifier with
  | Raise e => (Raise e, log)
  | Ok doi =>
      let url := "https://api.crossref.org/works/" ++ doi in
      match crossref url with
      | RequestException msg =>
          (Raise (Exception ("Error fetching DOI information: " ++ msg)),
           (log ++ [url])%list)
      | Message data =>
          (let* info := publication_info data doi in
           let* key := citation_key_of info in
           entry_of info key,
           (log ++ [url])%list)
      end
  end.
Proof.
  unfold generate_from_identifier, fetch_from_doi, requests_get, bind, lift.
  destruct (identifier_doi identifier) as [doi|e]; [| reflexivity].
  cbv zeta.
  destruct (crossref ("https://api.crossref.org/works/" ++ doi))
    as [msg|data]; [reflexivity |].
  destruct (publication_info data doi) as [info|e]; [| reflexivity].
  cbn [rbind].
  destruct (citation_key_of info); reflexivity.
Qed.

End Pipeline.

(** What [fetch_from_doi] stores under each key. *)
Lemma publication_info_fields (data : RawRecord) (doi : string)
      (info : dict (option string)) :
  publication_info data doi = Ok info ->
  exists t y,
    title_of data = Ok t /\ year_of data = Ok y
    /\ dict_get info "title" = Some t
    /\ dict_get info "authors" = Some (Some (authors_of data))
    /\ dict_get info "year" = Some (Some y)
    /\ dict_get info "doi" = Some (Some doi)
    /\ dict_get info "type" = Some (type data)
    /\ dict_get_default info "journal" (Some "")
       = Some (match container_title data with
               | Some (j :: _) => j
               | _ => ""
               end)
    /\ dict_get_default info "volume" None = Spec.kept (volume data)
    /\ dict_get_default info "number" None = Spec.kept (issue data)
    /\ dict_get_default info "pages" None = Spec.kept (page data)
    /\ dict_get_default info "container-title" None = None.
Proof.
  unfold publication_info, Spec.kept.
  destruct (title_of data) as [t|]; [| discriminate].
  destruct (year_of data) as [y|]; [| discriminate].
  cbn [rbind]. intros H. exists t, y.
  destruct (container_title data) as [[|j js]|];
    destruct (truthy (volume data));
    destruct (truthy (issue data));
    destruct (truthy (page data));
    cbn [rbind] in H; injection H as <-;
    repeat split; reflexivity.
Qed.

Lemma publication_info_total (data : RawRecord) (doi : string)
      (t : option string) (y : string) :
  title_of data = Ok t -> year_of data = Ok y ->
  exists info, publication_info data doi = Ok info.
Proof.
  intros Ht Hy. unfold publication_info. rewrite Ht, Hy. cbn [rbind].
  destruct (container_title data) as [[|j js]|]; cbn [rbind]; eauto.
Qed.

(** Optional fields that are empty print like fields that are absent. *)
Lemma create_article_kept (key : string) (t : option string) (a : string)
      (j y v n p d : option string) :
  create_article key t a j y (Spec.kept v) (Spec.kept n) (Spec.kept p) d
  = create_article key t a j y v n p d.
Proof.
  unfold create_article.
  etransitivity; [apply create_entry_skips |].
  symmetry. etransitivity; [apply create_entry_skips |].
  f_equal. unfold Spec.emitted, Spec.kept. cbn [filter snd].
  destruct (truthy v) eqn:Ev; rewrite ?Ev;
    destruct (truthy n) eqn:En; rewrite ?En;
    destruct (truthy p) eqn:Ep; rewrite ?Ep; reflexivity.
Qed.

(** The entry of a record of any type but [proceedings-article]. *)
Lemma entry_of_article (data : RawRecord) (doi : string)
      (info : dict (option string)) (key : string)
      (t : option string) (y : string) :
  publication_info data doi = Ok info ->
  title_of data = Ok t -> year_of data = Ok y ->
  type data <> Some "proceedings-article" ->
  entry_of info key =
  Ok (create_article
        key t (authors_of data)
        (Some (match container_title data with
               | Some (j :: _) => j
               | _ => ""
               end))
        (Some y) (volume data) (issue data) (page data) (Some doi)).
Proof.
  intros Hinfo Ht Hy Hty.
  destruct (publication_info_fields data doi info Hinfo)
    as (t' & y' & Ht' & Hy' & Etitle & Eauthors & Eyear & Edoi & Etype
        & Ejournal & Evolume & Enumber & Epages & _).
  rewrite Ht in Ht'. injection Ht' as <-.
  rewrite Hy in Hy'. injection Hy' as <-.
  unfold entry_of, dict_item.
  rewrite Etype, Etitle, Eauthors, Eyear, Edoi, Ejournal, Evolume, Enumber,
    Epages.
  cbn [rbind as_str].
  assert (Earticle :
            match type data with
            | Some ty => dict_get_default type_mapping ty "article"
            | None => "article"
            end = "article").
  { destruct (type data) as [ty|]; [| reflexivity].
    unfold dict_get_default, type_mapping. cbn [dict_get].
    destruct (String.eqb_spec "journal-article" ty); [reflexivity |].
    destruct (String.eqb_spec "proceedings-article" ty); [| reflexivity].
    subst ty. now contradiction Hty. }
  rewrite Earticle. cbn [String.eqb Ascii.eqb Bool.eqb].
  now rewrite create_article_kept.
Qed.




(** C2, the code at a [proceedings-article] record.  The call never returns
    an entry; once the citation key is derived it raises [TypeError], from
    [pub_info.get['pages']]. *)
Theorem proceedings_article_raises (crossref : string -> response)
        (identifier : string) (log : list string) (doi : string)
        (data : RawRecord) :
  identifier_doi identifier = Ok doi ->
  crossref ("https://api.crossref.org/works/" ++ doi) = Message data ->
  type data = Some "proceedings-article" ->
  (exists e, fst (generate_from_identifier crossref identifier log) = Raise e)
  /\ (forall info key,
         publication_info data doi = Ok info ->
         citation_key_of info = Ok key ->
         fst (generate_from_identifier crossref identifier log)
         = Raise TypeError).
Proof.
  intros Hdoi Hresp Hty.
  assert (Hentry : forall info key,
             publication_info data doi = Ok info ->
             entry_of info key = Raise TypeError).
  { intros info key Hinfo.
    destruct (publication_info_fields data doi info Hinfo)
      as (t & y & _ & _ & Etitle & Eauthors & Eyear & _ & Etype & _).
    unfold entry_of, dict_item.
    rewrite Etype, Hty, Etitle, Eauthors, Eyear. reflexivity. }
  rewrite generate_steps, Hdoi. cbv zeta. rewrite Hresp. cbn [fst].
  split.
  - destruct (publication_info data doi) as [info|e] eqn:Hinfo;
      cbn [rbind]; [| eauto].
    destruct (citation_key_of info) as [key|e]; cbn [rbind]; [| eauto].
    rewrite (Hentry info key eq_refl). eauto.
  - intros info key Hinfo Hkey. rewrite Hinfo. cbn [rbind].
    rewrite Hkey. cbn [rbind]. now apply Hentry.
Qed.

Lemma proceedings_article_raises_witness :
  fst (generate_from_identifier (Samples.registry Samples.proceedings_record)
                                Samples.example_doi [])
  = Raise TypeError.
Proof.
  refine (proj2 (proceedings_article_raises
                   (Samples.registry Samples.proceedings_record)
                   Samples.example_doi [] Samples.example_doi
                   Samples.proceedings_record _ _ _)
                [ ("title", Some "Test Article");
                  ("authors", Some "John Doe");
                  ("year", Some "2024");
                  ("doi", Some Samples.example_doi);
                  ("type", Some "proceedings-article");
                  ("journal", Some "Test Journal") ]
                "doe2024test" _ _);
    reflexivity.
Defined.

(** The year of a record with a print-publication date. *)
Lemma year_of_dated (data : RawRecord) (d : DateField) (y : Z)
      (row : list (option Z)) (rows : list (list (option Z))) :
  published_print data = Some d ->
  date_parts d = Some ((Some y :: row) :: rows) ->
  year_of data = Ok (str_of_int y).
Proof. intros H1 H2. unfold year_of. now rewrite H1, H2. Qed.

(** C4, the code at a record with no print-publication date.  The year is
    not absent: it is the text [None], the [str] of the default, and it is
    stored as such in the record, from where it reaches the citation key and
    the [year] line. *)
Theorem year_of_undated (data : RawRecord) :
  published_print data = None
  \/ (exists d, published_print data = Some d /\ date_parts d = None) ->
  year_of data = Ok "None"
  /\ (forall doi info,
         publication_info data doi = Ok info ->
         dict_get info "year" = Some (Some "None")
         /\ truthy (Some "None") = true).
Proof.
  intros H.
  assert (Hy : year_of data = Ok "None").
  { unfold year_of. destruct H as [-> | (d & -> & ->)]; reflexivity. }
  split; [exact Hy |].
  intros doi info Hinfo.
  destruct (publication_info_fields data doi info Hinfo)
    as (t & y & _ & Hy' & _ & _ & Eyear & _).
  rewrite Hy in Hy'. injection Hy' as <-. now split.
Qed.

Lemma year_of_undated_witness :
  year_of Samples.undated_record = Ok "None".
Proof.
  exact (proj1 (year_of_undated Samples.undated_record
                                (or_introl eq_refl))).
Defined.

(** The output for that record: the key and the [year] line hold [None]. *)
Lemma undated_record_output :
  generate_from_identifier (Samples.registry Samples.undated_record)
                           Samples.example_doi []
  = (Ok ("@article{doeNonetest," ++ nl
         ++ "  author = {John Doe}," ++ nl
         ++ "  title = {Test Article}," ++ nl
         ++ "  journal = {Test Journal}," ++ nl
         ++ "  year = {None}," ++ nl
         ++ "  doi = {10.1234/example.123}" ++ nl
         ++ "}"),
     ["https://api.crossref.org/works/10.1234/example.123"]).
Proof. reflexivity. Qed.

(** The end-to-end test: a [journal-article] record gives an [@article]
    entry with the key [doe2024test], after one request. *)
Lemma journal_record_output :
  generate_from_identifier (Samples.registry Samples.journal_record)
                           "https://doi.org/10.1234/example.123" []
  = (Ok ("@article{doe2024test," ++ nl
         ++ "  author = {John Doe}," ++ nl
         ++ "  title = {Test Article}," ++ nl
         ++ "  journal = {Test Journal}," ++ nl
         ++ "  year = {2024}," ++ nl
         ++ "  doi = {10.1234/example.123}" ++ nl
         ++ "}"),
     ["https://api.crossref.org/works/10.1234/example.123"]).
Proof. reflexivity. Qed.

Lemma split_on_cons (sep : ascii) (s : string) :
  exists h t, split_on sep s = h :: t.
Proof.
  induction s as [|c s (h & t & IH)]; simpl; [now eauto |].
  destruct (Ascii.eqb c sep); [now eauto |].
  rewrite IH. eauto.
Qed.

(** C5, the code at a record without authors or without a title.  The
    citation key is derived with no guard.  Without authors the last word of
    an empty first author is asked for and the call raises [IndexError];
    without a title it raises [IndexError] or, when the authors pass,
    [AttributeError] from the [split] of [None]. *)
Theorem citation_key_unguarded (crossref : string -> response)
        (identifier : string) (log : list string) (doi : string)
        (data : RawRecord) (y : string) :
  identifier_doi identifier = Ok doi ->
  crossref ("https://api.crossref.org/works/" ++ doi) = Message data ->
  year_of data = Ok y ->
  (forall t,
      title_of data = Ok t ->
      author data = None \/ author data = Some [] ->
      fst (generate_from_identifier crossref identifier log)
      = Raise IndexError)
  /\ (title data = None ->
      fst (generate_from_identifier crossref identifier log)
      = Raise IndexError
      \/ fst (generate_from_identifier crossref identifier log)
         = Raise AttributeError).
Proof.
  intros Hdoi Hresp Hy.
  rewrite generate_steps, Hdoi. cbv zeta. rewrite Hresp. cbn [fst].
  split.
  - intros t Ht Hauthor.
    destruct (publication_info_total data doi t y Ht Hy) as [info Hinfo].
    destruct (publication_info_fields data doi info Hinfo)
      as (_ & _ & _ & _ & _ & Eauthors & _).
    assert (Hnone : authors_of data = "").
    { unfold authors_of. destruct Hauthor as [-> | ->]; reflexivity. }
    rewrite Hinfo. cbn [rbind].
    unfold citation_key_of, dict_item. rewrite Eauthors, Hnone. reflexivity.
  - intros Htitle.
    assert (Ht : title_of data = Ok None).
    { unfold title_of. now rewrite Htitle. }
    destruct (publication_info_total data doi None y Ht Hy) as [info Hinfo].
    destruct (publication_info_fields data doi info Hinfo)
      as (t' & y' & Ht' & _ & Etitle & Eauthors & Eyear & _).
    rewrite Ht in Ht'. injection Ht' as <-.
    rewrite Hinfo. cbn [rbind].
    unfold citation_key_of, dict_item. rewrite Eauthors, Etitle, Eyear.
    cbn [rbind as_str].
    destruct (split_on_cons "," (authors_of data)) as (h & tl & ->).
    cbn [rbind first_item].
    unfold last_item.
    destruct (rev (split h)); cbn [rbind]; [left | right]; reflexivity.
Qed.

Lemma citation_key_unguarded_witness :
  fst (generate_from_identifier (Samples.registry Samples.anonymous_record)
                                Samples.example_doi [])
  = Raise IndexError
  /\ (fst (generate_from_identifier (Samples.registry Samples.untitled_record)
                                    Samples.example_doi [])
      = Raise IndexError
      \/ fst (generate_from_identifier
                (Samples.registry Samples.untitled_record)
                Samples.example_doi [])
         = Raise AttributeError).
Proof.
  split.
  - refine (proj1 (citation_key_unguarded
                     (Samples.registry Samples.anonymous_record)
                     Samples.example_doi [] Samples.example_doi
                     Samples.anonymous_record "2024" _ _ _)
                  (Some "Test Article") _ _);
      try reflexivity.
    now right.
  - refine (proj2 (citation_key_unguarded
                     (Samples.registry Samples.untitled_record)
                     Samples.example_doi [] Samples.example_doi
                     Samples.untitled_record "2024" _ _ _) _);
      reflexivity.
Defined.

(** A record without a title: the call raises [AttributeError]. *)
Lemma untitled_record_output :
  fst (generate_from_identifier (Samples.registry Samples.untitled_record)
                                Samples.example_doi [])
  = Raise AttributeError.
Proof. reflexivity. Qed.

(** C7, as the code has it.  The test is on the four characters [http],
    not on a scheme.  An identifier that does not start with [http] is the
    DOI of the one request, as it is, whatever it looks like, and the result is what the
    answer to that request gives; an identifier that starts with [http] and
    holds no DOI makes the call raise [ValueError] with no request sent. *)
Theorem identifier_resolution (crossref : string -> response)
        (identifier : string) (log : list string) :
  (startswith identifier "http" = false ->
   snd (generate_from_identifier crossref identifier log)
   = (log ++ [("https://api.crossref.org/works/" ++ identifier)%string])%list
   /\ fst (generate_from_identifier crossref identifier log)
      = match crossref ("https://api.crossref.org/works/" ++ identifier) with
        | RequestException msg =>
            Raise (Exception ("Error fetching DOI information: " ++ msg))
        | Message data =>
            let* info := publication_info data identifier in
            let* key := citation_key_of info in
            entry_of info key
        end)
  /\ (startswith identifier "http" = true ->
      extract_doi_from_url identifier = None ->
      generate_from_identifier crossref identifier log
      = (Raise (ValueError "Could not extract DOI from URL"), log)).
Proof.
  split.
  - intros H. rewrite generate_steps. unfold identifier_doi. rewrite H.
    cbv zeta.
    now destruct (crossref ("https://api.crossref.org/works/" ++ identifier)).
  - intros H Hnone. rewrite generate_steps. unfold identifier_doi.
    now rewrite H, Hnone.
Qed.

Lemma identifier_resolution_witness :
  snd (generate_from_identifier (Samples.registry Samples.journal_record)
                                "not a doi" [])
  = ["https://api.crossref.org/works/not a doi"]
  /\ generate_from_identifier (Samples.registry Samples.journal_record)
                              "https://invalid-url.com" []
     = (Raise (ValueError "Could not extract DOI from URL"), []).
Proof.
  split.
  - exact (proj1 (proj1 (identifier_resolution
                           (Samples.registry Samples.journal_record)
                           "not a doi" []) eq_refl)).
  - exact (proj2 (identifier_resolution
                    (Samples.registry Samples.journal_record)
                    "https://invalid-url.com" []) eq_refl eq_refl).
Defined.

(** C7, as stated, fails for an identifier that starts with [http] without
    an http(s) scheme: [httpbin-42] is not sent to the registry, the call
    raises [ValueError] with no request; [http.10.1234/abc] is not sent as it
    is, the request is for the DOI found inside it. *)
Lemma identifier_resolution_counterexample :
  Spec.has_http_scheme "httpbin-42" = false
  /\ generate_from_identifier (Samples.registry Samples.journal_record)
                              "httpbin-42" []
     = (Raise (ValueError "Could not extract DOI from URL"), [])
  /\ Spec.has_http_scheme "http.10.1234/abc" = false
  /\ snd (generate_from_identifier (Samples.registry Samples.journal_record)
                                   "http.10.1234/abc" [])
     = ["https://api.crossref.org/works/10.1234/abc"]
  /\ snd (generate_from_identifier (Samples.registry Samples.journal_record)
                                   "http.10.1234/abc" [])
     <> ["https://api.crossref.org/works/http.10.1234/abc"].
Proof.
  repeat split; try reflexivity.
  vm_compute. discriminate.
Qed.

(** * Beyond the claims *)

(** ** [_format_authors] *)

Section AuthorsMore.

Lemma split_on_pieces (sep : ascii) (s : string) :
  Forall (fun piece => count sep piece = 0) (split_on sep s).
Proof.
  induction s as [|c s IH]; simpl.
  - now repeat constructor.
  - destruct (Ascii.eqb c sep) eqn:E; [now constructor |].
    destruct (split_on sep s) as [|h t].
    + repeat constructor. simpl. now rewrite E.
    + inversion IH as [|? ? Hh Ht]; subst.
      constructor; [| exact Ht]. simpl. now rewrite E, Hh.
Qed.

Lemma count_strip (c : ascii) (s : string) :
  count c s = 0 -> count c (strip s) = 0.
Proof.
  destruct (strip_spec s) as (l & r & Hs & _).
  intros H. rewrite Hs, !count_append in H. lia.
Qed.

Lemma count_join (c : ascii) (sep : string) (l : list string) :
  count c sep = 0 ->
  Forall (fun piece => count c piece = 0) l ->
  count c (join sep l) = 0.
Proof.
  intros Hsep. induction l as [|a l IH]; intros H; [reflexivity |].
  inversion H as [|? ? Ha Hl]; subst.
  destruct l as [|b l]; [exact Ha |].
  change (join sep (a :: b :: l)) with (a ++ sep ++ join sep (b :: l)).
  rewrite !count_append, Ha, Hsep, (IH Hl). reflexivity.
Qed.

Lemma split_on_last (sep : ascii) (s : string) :
  split_on sep (s ++ String sep "") = (split_on sep s ++ [""])%list.
Proof.
  induction s as [|c s IH]; simpl.
  - now rewrite Ascii.eqb_refl.
  - destruct (Ascii.eqb c sep); rewrite IH; [reflexivity |].
    destruct (split_on_cons sep s) as (h & t & ->). reflexivity.
Qed.

Lemma join_last (sep : string) (a : string) (l : list string) :
  join sep ((a :: l) ++ [""]) = join sep (a :: l) ++ sep.
Proof.
  revert a. induction l as [|b l IH]; intros a.
  - cbn [app]. unfold join. cbn [String.concat].
    now rewrite append_empty_r.
  - change (join sep ((a :: b :: l) ++ [""]))
      with (a ++ sep ++ join sep ((b :: l) ++ [""])).
    rewrite IH.
    change (join sep (a :: b :: l)) with (a ++ sep ++ join sep (b :: l)).
    now rewrite !append_assoc.
Qed.

Lemma strip_space_first (s : string) : strip (String " " s) = strip s.
Proof. reflexivity. Qed.

(** Splitting at the commas what was joined with a comma and a space gives
    the names back, up to the whitespace around them. *)
Lemma split_on_join_space (a : string) (names : list string) :
  Forall (fun n => count "," n = 0) (a :: names) ->
  map strip (split_on "," (join ", " (a :: names))) = map strip (a :: names).
Proof.
  revert a. induction names as [|b names IH]; intros a H.
  - unfold join. cbn [String.concat].
    rewrite split_on_whole; [reflexivity | now inversion H].
  - inversion H as [|? ? Ha Hrest]; subst.
    change (join ", " (a :: b :: names))
      with (a ++ String "," (String " " (join ", " (b :: names)))).
    rewrite (split_on_first _ _ _ Ha).
    specialize (IH b Hrest).
    cbn [map]. f_equal.
    cbn [split_on]. cbn [Ascii.eqb Bool.eqb].
    destruct (split_on_cons "," (join ", " (b :: names))) as (h & t & E).
    rewrite E in *. cbn [map] in *.
    now rewrite strip_space_first.
Qed.

End AuthorsMore.

(** X1. The text [_format_authors] returns holds no comma, whatever it was
    given. *)
Theorem format_authors_no_comma (authors : string) :
  count "," (_format_authors authors) = 0.
Proof.
  unfold _format_authors. apply count_join; [reflexivity |].
  apply Forall_forall. intros piece Hin.
  apply in_map_iff in Hin as (raw & <- & Hraw).
  apply count_strip.
  pose proof (split_on_pieces "," authors) as H.
  now apply (proj1 (Forall_forall _ _) H).
Qed.

(** X2. A comma at the end of the author text counts as one more, empty,
    author: the result ends with a dangling [" and "]. *)
Theorem format_authors_trailing_comma (authors : string) :
  _format_authors (authors ++ ",") = _format_authors authors ++ " and ".
Proof.
  unfold _format_authors. rewrite split_on_last, map_app. cbn [map].
  destruct (split_on_cons "," authors) as (h & t & ->).
  cbn [map]. change (strip "") with "".
  apply (join_last " and ").
Qed.

(** X12. The author text [fetch_from_doi] builds with [", ".join] is taken
    apart again by [_format_authors]: when no name holds a comma, the author
    field is the names of the record, each stripped, joined by [" and "]. *)
Theorem format_authors_of_record (data : RawRecord) :
  Forall (fun a => count "," (Fixtures.full_name a) = 0)
         (Fixtures.author_list data) ->
  _format_authors (authors_of data)
  = join " and " (map (fun a => strip (Fixtures.full_name a))
                      (Fixtures.author_list data)).
Proof.
  intros H.
  change (authors_of data)
    with (join ", " (map Fixtures.full_name (Fixtures.author_list data))).
  unfold _format_authors.
  destruct (Fixtures.author_list data) as [|a l]; [reflexivity |].
  f_equal. cbn [map]. rewrite split_on_join_space.
  { cbn [map]. now rewrite map_map. }
  change (Fixtures.full_name a :: map Fixtures.full_name l)
    with (map Fixtures.full_name (a :: l)).
  apply Forall_forall. intros n Hin.
  apply in_map_iff in Hin as (x & <- & Hx).
  now apply (proj1 (Forall_forall _ _) H).
Qed.

Lemma format_authors_of_record_witness :
  _format_authors (authors_of Fixtures.two_author_record)
  = "Ada B. Lovelace and Turing".
Proof.
  refine (format_authors_of_record Fixtures.two_author_record _).
  repeat constructor.
Defined.

(** ** [_create_entry], [create_article], [create_inproceeding] *)

(** Every entry opens with its type and closes with a brace. *)
Lemma entry_open (t k : string) (fields : dict (option string)) :
  exists body,
    _create_entry t k fields = "@" ++ t ++ "{" ++ body ++ nl ++ "}".
Proof.
  rewrite create_entry_lines.
  replace ("@" ++ t ++ "{" ++ k ++ "," ++ nl
               ++ Spec.lines (Spec.emitted fields))
    with ((("@" ++ t) ++ "{")
            ++ k ++ "," ++ nl ++ Spec.lines (Spec.emitted fields))
    by now norm_append.
  rewrite rstrip_append.
  destruct (rstrip (char_in ("," ++ nl))
                   (k ++ "," ++ nl ++ Spec.lines (Spec.emitted fields)))
    as [|c body].
  - exists "". rewrite rstrip_kept by reflexivity. now norm_append.
  - exists (String c body). now norm_append.
Qed.

(** X3. Whatever the entry type, the key and the fields, the output opens
    with [@<entry type>{] and closes with a newline and a brace, and what
    stands before that newline never ends with a comma or a newline: no
    dangling comma, no empty last line. *)
Theorem create_entry_frame (t k : string) (fields : dict (option string)) :
  exists body,
    _create_entry t k fields = "@" ++ t ++ "{" ++ body ++ nl ++ "}"
    /\ last_in (char_in ("," ++ nl)) ("@" ++ t ++ "{" ++ body) = false.
Proof.
  rewrite create_entry_lines.
  set (rest := k ++ "," ++ nl ++ Spec.lines (Spec.emitted fields)).
  set (commas := char_in ("," ++ nl)).
  assert (E : "@" ++ t ++ "{" ++ rest = (("@" ++ t) ++ "{") ++ rest)
    by now norm_append.
  assert (Hopen : rstrip commas (("@" ++ t) ++ "{") = ("@" ++ t) ++ "{")
    by now apply rstrip_kept.
  destruct (rstrip_spec commas ("@" ++ t ++ "{" ++ rest)) as (r & _ & _ & Hl).
  rewrite E, rstrip_append in Hl |- *.
  destruct (rstrip commas rest) as [|c body'].
  - exists "". rewrite Hopen in Hl |- *. split; [now norm_append |].
    now rewrite append_assoc in Hl.
  - exists (String c body'). split; [now norm_append |].
    now rewrite append_assoc in Hl.
Qed.

(** The fields of an entry when every one of them has a value. *)
Ltac all_fields_emitted :=
  match goal with
  | |- context [_create_entry ?t ?k ?fields] =>
      let H := fresh "H" in
      assert (H : Spec.emitted fields = fields) by reflexivity;
      let Hne := fresh "Hne" in
      assert (Hne : Spec.emitted fields <> []) by (rewrite H; discriminate);
      destruct (create_entry_some t k fields Hne) as [-> _];
      rewrite H; unfold join, Spec.field_line;
      cbn [String.concat map fst snd format]; now norm_append
  end.

Lemma strip_empty (s : string) :
  strip s = "" -> forallb isspace s = true.
Proof.
  intros H. destruct (strip_spec s) as (l & r & Hs & Hl & Hr & _).
  rewrite Hs, H, !forallb_append, Hl, Hr. reflexivity.
Qed.

Lemma split_on_single (sep : ascii) (s h : string) :
  split_on sep s = [h] -> s = h.
Proof.
  revert h. induction s as [|c s IH]; simpl; intros h H.
  - now injection H.
  - destruct (Ascii.eqb c sep).
    + destruct (split_on_cons sep s) as (h' & t' & E).
      rewrite E in H. discriminate.
    + destruct (split_on_cons sep s) as (h' & t' & E).
      rewrite E in H, IH. destruct t' as [|h2 t']; [| discriminate].
      injection H as <-. now rewrite (IH h' eq_refl).
Qed.

(** An author text that is not only whitespace gives an author field. *)
Lemma format_authors_some (authors : string) :
  forallb isspace authors = false -> _format_authors authors <> "".
Proof.
  intros H. unfold _format_authors.
  destruct (split_on "," authors) as [|h [|h2 tl]] eqn:E.
  - destruct (split_on_cons "," authors) as (h & t & E').
    rewrite E in E'. discriminate.
  - apply split_on_single in E. subst h.
    unfold join. cbn [map String.concat]. intros Hs.
    apply strip_empty in Hs. congruence.
  - change (join " and " (map strip (h :: h2 :: tl)))
      with (strip h ++ " and " ++ join " and " (map strip (h2 :: tl))).
    destruct (strip h); discriminate.
Qed.

(** X4. An article whose author text is not only whitespace and whose
    title, journal and year are not empty is printed in the order author,
    title, journal, year, volume, number, pages, doi when the optional
    fields are not empty; when they are [None] or empty, it is the first
    four lines. *)
Theorem create_article_text (key authors t j y : string) :
  forallb isspace authors = false -> t <> "" -> j <> "" -> y <> "" ->
  (forall v n p d : string,
      v <> "" -> n <> "" -> p <> "" -> d <> "" ->
      create_article key (Some t) authors (Some j) (Some y)
                     (Some v) (Some n) (Some p) (Some d)
      = "@article{" ++ key ++ "," ++ nl
        ++ "  author = {" ++ _format_authors authors ++ "}," ++ nl
        ++ "  title = {" ++ t ++ "}," ++ nl
        ++ "  journal = {" ++ j ++ "}," ++ nl
        ++ "  year = {" ++ y ++ "}," ++ nl
        ++ "  volume = {" ++ v ++ "}," ++ nl
        ++ "  number = {" ++ n ++ "}," ++ nl
        ++ "  pages = {" ++ p ++ "}," ++ nl
        ++ "  doi = {" ++ d ++ "}" ++ nl
        ++ "}")
  /\ (forall v n p d : option string,
         truthy v = false -> truthy n = false ->
         truthy p = false -> truthy d = false ->
         create_article key (Some t) authors (Some j) (Some y) v n p d
         = "@article{" ++ key ++ "," ++ nl
           ++ "  author = {" ++ _format_authors authors ++ "}," ++ nl
           ++ "  title = {" ++ t ++ "}," ++ nl
           ++ "  journal = {" ++ j ++ "}," ++ nl
           ++ "  year = {" ++ y ++ "}" ++ nl
           ++ "}").
Proof.
  intros Ha Ht Hj Hy. apply format_authors_some in Ha.
  unfold create_article.
  destruct (_format_authors authors) as [|a0 a]; [congruence |].
  destruct t as [|t0 t]; [congruence |].
  destruct j as [|j0 j]; [congruence |].
  destruct y as [|y0 y]; [congruence |].
  split.
  - intros [|v0 v] [|n0 n] [|p0 p] [|d0 d] Hv Hn Hp Hd; try congruence.
    all_fields_emitted.
  - intros v n p d Hv Hn Hp Hd.
    rewrite create_entry_skips. unfold Spec.emitted. cbn [filter snd truthy].
    rewrite Hv, Hn, Hp, Hd.
    all_fields_emitted.
Qed.

Lemma create_article_text_witness :
  create_article "doe2024analysis" (Some "Analysis of Something")
                 "John Doe, Jane Smith" (Some "Journal of Things")
                 (Some "2024") (Some "1") (Some "2") (Some "34-45")
                 (Some "10.1234/example.123")
  = "@article{doe2024analysis," ++ nl
    ++ "  author = {John Doe and Jane Smith}," ++ nl
    ++ "  title = {Analysis of Something}," ++ nl
    ++ "  journal = {Journal of Things}," ++ nl
    ++ "  year = {2024}," ++ nl
    ++ "  volume = {1}," ++ nl
    ++ "  number = {2}," ++ nl
    ++ "  pages = {34-45}," ++ nl
    ++ "  doi = {10.1234/example.123}" ++ nl
    ++ "}".
Proof.
  refine (proj1 (create_article_text
                   "doe2024analysis" "John Doe, Jane Smith"
                   "Analysis of Something" "Journal of Things" "2024"
                   _ _ _ _)
                "1" "2" "34-45" "10.1234/example.123" _ _ _ _);
    first [reflexivity | discriminate].
Defined.

(** X5. An entry of [create_inproceeding] whose fields all have a value is
    named [inproceeding] and printed in the order author, title, booktitle,
    year, pages, address, doi. *)
Theorem create_inproceeding_text (key authors t b y p l d : string) :
  _format_authors authors <> "" -> t <> "" -> b <> "" -> y <> "" ->
  p <> "" -> l <> "" -> d <> "" ->
  create_inproceeding key (Some t) authors (Some b) (Some y)
                      (Some p) (Some l) (Some d)
  = "@inproceeding{" ++ key ++ "," ++ nl
    ++ "  author = {" ++ _format_authors authors ++ "}," ++ nl
    ++ "  title = {" ++ t ++ "}," ++ nl
    ++ "  booktitle = {" ++ b ++ "}," ++ nl
    ++ "  year = {" ++ y ++ "}," ++ nl
    ++ "  pages = {" ++ p ++ "}," ++ nl
    ++ "  address = {" ++ l ++ "}," ++ nl
    ++ "  doi = {" ++ d ++ "}" ++ nl
    ++ "}".
Proof.
  intros Ha Ht Hb Hy Hp Hl Hd. unfold create_inproceeding.
  destruct (_format_authors authors) as [|a0 a]; [congruence |].
  destruct t as [|t0 t]; [congruence |].
  destruct b as [|b0 b]; [congruence |].
  destruct y as [|y0 y]; [congruence |].
  destruct p as [|p0 p]; [congruence |].
  destruct l as [|l0 l]; [congruence |].
  destruct d as [|d0 d]; [congruence |].
  all_fields_emitted.
Qed.

Lemma create_inproceeding_text_witness :
  create_inproceeding "doe2024analysis" (Some "Analysis of Something")
                      "John Doe, Jane Smith" (Some "Proceedings of Things")
                      (Some "2024") (Some "34-45") (Some "New York, NY")
                      (Some "10.1234/example.123")
  = "@inproceeding{doe2024analysis," ++ nl
    ++ "  author = {John Doe and Jane Smith}," ++ nl
    ++ "  title = {Analysis of Something}," ++ nl
    ++ "  booktitle = {Proceedings of Things}," ++ nl
    ++ "  year = {2024}," ++ nl
    ++ "  pages = {34-45}," ++ nl
    ++ "  address = {New York, NY}," ++ nl
    ++ "  doi = {10.1234/example.123}" ++ nl
    ++ "}".
Proof.
  refine (create_inproceeding_text
            "doe2024analysis" "John Doe, Jane Smith" "Analysis of Something"
            "Proceedings of Things" "2024" "34-45" "New York, NY"
            "10.1234/example.123" _ _ _ _ _ _ _);
    discriminate.
Defined.

(** ** [extract_doi_from_url] *)

Section ExtractionMore.

Let pair : list Re.item :=
  [Re.Plus Re.not_slash_space; Re.Chr "/"; Re.Plus Re.not_slash_space].

Let bare : list Re.item :=
  [Re.Plus Re.digit; Re.Chr "."; Re.Plus Re.digit; Re.Chr "/";
   Re.Plus Re.not_slash_space].

(** A returned DOI is a part of the input that the group of one of the
    patterns spells. *)
Lemma extract_doi_group (url d : string) :
  extract_doi_from_url url = Some d ->
  exists w s, url = w ++ d ++ s /\ (Re.lang pair d \/ Re.lang bare d).
Proof.
  unfold extract_doi_from_url, doi_patterns. cbn [first_match]. intros H.
  destruct (Re.search doi_org_pattern url) as [d1|] eqn:E1.
  { injection H as ->.
    destruct (search_group (Re.lit "doi.org/") pair url d I I E1)
      as (w & s & -> & Hd). eauto. }
  destruct (Re.search doi_colon_pattern url) as [d2|] eqn:E2.
  { injection H as ->.
    destruct (search_group (Re.lit "doi:") pair url d I I E2)
      as (w & s & -> & Hd). eauto. }
  destruct (Re.search bare_pattern url) as [d3|] eqn:E3; [| discriminate].
  injection H as ->.
  destruct (search_group [] bare url d I I E3) as (w & s & -> & Hd). eauto.
Qed.

Lemma forallb_digit_class (w : string) :
  forallb Re.digit w = true -> forallb Re.not_slash_space w = true.
Proof.
  induction w as [|c w IH]; simpl; [reflexivity |].
  intros H. apply andb_prop in H as [Hc Hw].
  now rewrite (digit_class c Hc), (IH Hw).
Qed.

Lemma group_halves (d : string) :
  Re.lang pair d \/ Re.lang bare d ->
  exists prefix suffix,
    d = prefix ++ "/" ++ suffix
    /\ prefix <> "" /\ suffix <> ""
    /\ forallb Re.not_slash_space prefix = true
    /\ forallb Re.not_slash_space suffix = true.
Proof.
  intros [H | H]; simpl in H.
  - destruct H as (a & w1 & w2 & -> & Ha & H1 & w' & -> & b & w3 & w4
                   & -> & Hb & H3 & ->).
    exists (String a w1), (String b w3).
    rewrite append_empty_r. simpl.
    rewrite Ha, H1, Hb, H3. repeat split; try discriminate.
  - destruct H as (a & w1 & w2 & -> & Ha & H1 & w' & -> & b & w3 & w4
                   & -> & Hb & H3 & w5 & -> & c & w6 & w7 & -> & Hc & H6 & ->).
    exists (String a (w1 ++ "." ++ String b w3)), (String c w6).
    rewrite append_empty_r. simpl.
    rewrite (digit_class a Ha), forallb_append, (forallb_digit_class _ H1).
    simpl. rewrite (digit_class b Hb), (forallb_digit_class _ H3), Hc, H6.
    repeat split; try discriminate.
    now rewrite !append_assoc.
Qed.

Lemma pair_tidy : Re.tidy pair.
Proof. simpl; auto. Qed.

Lemma bare_tidy : Re.tidy bare.
Proof. simpl; auto 10 using digit_class. Qed.

(** A greedy repetition runs to the end of the class when the rest of the
    pattern matches there. *)
Lemma star_greedy (p : ascii -> bool) (k : string -> option string)
      (w s r : string) :
  forallb p w = true -> first_in p s = false -> k s = Some r ->
  Re.star p k (w ++ s) = Some r.
Proof.
  intros Hw Hs Hk. induction w as [|c w IH]; simpl in *.
  - destruct s as [|c s]; simpl in *; [exact Hk |]. now rewrite Hs.
  - apply andb_prop in Hw as [-> Hw]. now rewrite (IH Hw).
Qed.

Lemma match_lit (l : string) (r : list Re.item) (g cap s : string) :
  Re.match_here (Re.lit l ++ r)%list g cap (l ++ s) = Re.match_here r g cap s.
Proof.
  induction l as [|c l IH]; simpl; [reflexivity |].
  now rewrite Ascii.eqb_refl.
Qed.

(** Two segments around a slash, followed by nothing the last segment could
    take, are the group. *)
Lemma pair_match (a b rest cap : string) :
  a <> "" -> b <> "" ->
  forallb Re.not_slash_space a = true ->
  forallb Re.not_slash_space b = true ->
  first_in Re.not_slash_space rest = false ->
  Re.match_here (Re.Open :: pair ++ [Re.Close])%list "" cap
                (a ++ "/" ++ b ++ rest)
  = Some (a ++ "/" ++ b).
Proof.
  intros Ha Hb Fa Fb Hrest.
  destruct a as [|x a]; [congruence |]. destruct b as [|y b]; [congruence |].
  simpl in Fa, Fb.
  apply andb_prop in Fa as [Fx Fa]. apply andb_prop in Fb as [Fy Fb].
  cbn [Re.match_here pair app append]. rewrite Fx.
  apply star_greedy; [exact Fa | reflexivity |].
  cbn [Re.match_here append]. cbn [Ascii.eqb Bool.eqb]. rewrite Fy.
  apply star_greedy; [exact Fb | exact Hrest |].
  cbn [Re.match_here]. f_equal.
  replace (String x (a ++ String "/" (String y (b ++ rest))))
    with ((String x a ++ "/" ++ String y b) ++ rest)
    by (cbn [append]; now rewrite !append_assoc).
  apply captured_append.
Qed.

Lemma search_here (r : list Re.item) (s d : string) :
  Re.match_here r "" "" s = Some d -> Re.search r s = Some d.
Proof. intros H. destruct s; simpl; now rewrite H. Qed.

Lemma search_skip (c : ascii) (r : list Re.item) (pre s : string) :
  count c pre = 0 ->
  Re.search (Re.Chr c :: r) (pre ++ s) = Re.search (Re.Chr c :: r) s.
Proof.
  induction pre as [|x pre IH]; [reflexivity |].
  cbn [count]. destruct (Ascii.eqb x c) eqn:E; [discriminate |].
  intros H. cbn [append Re.search Re.match_here]. rewrite E. now apply IH.
Qed.

(** The first pattern finds the DOI of a resolver link. *)
Lemma doi_org_search (pre a b rest : string) :
  count "d" pre = 0 ->
  a <> "" -> b <> "" ->
  forallb Re.not_slash_space a = true ->
  forallb Re.not_slash_space b = true ->
  first_in Re.not_slash_space rest = false ->
  Re.search doi_org_pattern (pre ++ "doi.org/" ++ a ++ "/" ++ b ++ rest)
  = Some (a ++ "/" ++ b).
Proof.
  intros Hpre Ha Hb Fa Fb Hrest.
  change doi_org_pattern
    with (Re.Chr "d" :: Re.lit "oi.org/" ++ Re.Open :: pair ++ [Re.Close])%list.
  rewrite (search_skip "d" _ pre _ Hpre).
  apply search_here.
  change (Re.Chr "d" :: Re.lit "oi.org/" ++ Re.Open :: pair ++ [Re.Close])%list
    with (Re.lit "doi.org/" ++ Re.Open :: pair ++ [Re.Close])%list.
  rewrite match_lit. now apply pair_match.
Qed.

End ExtractionMore.

(** X6. A DOI that [extract_doi_from_url] returns is never empty: it is two
    segments around one slash, neither of them empty, neither holding a
    slash or whitespace. *)
Theorem extract_doi_shape (url d : string) :
  extract_doi_from_url url = Some d ->
  exists prefix suffix,
    d = prefix ++ "/" ++ suffix
    /\ prefix <> "" /\ suffix <> ""
    /\ forallb Re.not_slash_space prefix = true
    /\ forallb Re.not_slash_space suffix = true.
Proof.
  intros H. destruct (extract_doi_group url d H) as (w & s & _ & Hd).
  now apply group_halves.
Qed.

Lemma extract_doi_shape_witness :
  exists prefix suffix,
    "10.1234/example.123" = prefix ++ "/" ++ suffix
    /\ prefix <> "" /\ suffix <> ""
    /\ forallb Re.not_slash_space prefix = true
    /\ forallb Re.not_slash_space suffix = true.
Proof.
  exact (extract_doi_shape
           "https://example.com/article/doi:10.1234/example.123"
           "10.1234/example.123" eq_refl).
Defined.

(** X7. A text without a slash holds no DOI for [extract_doi_from_url]. *)
Theorem extract_doi_needs_slash (url : string) :
  count "/" url = 0 -> extract_doi_from_url url = None.
Proof.
  intros H. destruct (extract_doi_from_url url) as [d|] eqn:E; [| reflexivity].
  destruct (extract_doi_group url d E) as (w & s & -> & [Hd | Hd]).
  - destruct (lang_tidy _ pair_tidy d Hd) as [Hn _].
    rewrite !count_append, Hn in H. simpl in H. lia.
  - destruct (lang_tidy _ bare_tidy d Hd) as [Hn _].
    rewrite !count_append, Hn in H. simpl in H. lia.
Qed.

Lemma extract_doi_needs_slash_witness :
  extract_doi_from_url "doi:10.1234-example.123" = None.
Proof.
  exact (extract_doi_needs_slash "doi:10.1234-example.123" eq_refl).
Defined.

(** X8. Round trip through the resolver link: for a DOI of two segments
    around a slash, the text [doi.org/] followed by the DOI gives the DOI
    back, after any text without the letter [d] (as [https://]) and before
    the end, whitespace or a further slash. *)
Theorem extract_doi_resolver_link (pre a b rest : string) :
  count "d" pre = 0 ->
  a <> "" -> b <> "" ->
  forallb Re.not_slash_space a = true ->
  forallb Re.not_slash_space b = true ->
  first_in Re.not_slash_space rest = false ->
  extract_doi_from_url (pre ++ "doi.org/" ++ a ++ "/" ++ b ++ rest)
  = Some (a ++ "/" ++ b).
Proof.
  intros Hpre Ha Hb Fa Fb Hrest.
  unfold extract_doi_from_url, doi_patterns. cbn [first_match].
  now rewrite (doi_org_search pre a b rest Hpre Ha Hb Fa Fb Hrest).
Qed.

Lemma extract_doi_resolver_link_witness :
  extract_doi_from_url
    ("https://" ++ "doi.org/" ++ "10.1234" ++ "/" ++ "example.123" ++ "/full")
  = Some ("10.1234" ++ "/" ++ "example.123").
Proof.
  refine (extract_doi_resolver_link
            "https://" "10.1234" "example.123" "/full" _ _ _ _ _ _);
    try reflexivity; discriminate.
Defined.

(** ** [fetch_from_doi] and [generate_from_identifier] *)

Section PipelineMore.

Variable crossref : string -> response.

Lemma identifier_doi_link (a b : string) :
  a <> "" -> b <> "" ->
  forallb Re.not_slash_space a = true ->
  forallb Re.not_slash_space b = true ->
  identifier_doi ("https://doi.org/" ++ a ++ "/" ++ b) = Ok (a ++ "/" ++ b).
Proof.
  intros Ha Hb Fa Fb. unfold identifier_doi.
  replace ("https://doi.org/" ++ a ++ "/" ++ b)
    with ("https://" ++ "doi.org/" ++ a ++ "/" ++ b ++ "")
    by now rewrite append_empty_r.
  unfold extract_doi_from_url, doi_patterns. cbn [first_match].
  rewrite (doi_org_search "https://" a b "") by (auto; reflexivity).
  cbn [startswith String.prefix append].
  cbn [Ascii.ascii_dec Ascii.ascii_rec Ascii.ascii_rect Bool.bool_dec
       bool_rec bool_rect sumbool_rec sumbool_rect].
  destruct a as [|x a]; [congruence | reflexivity].
Qed.

Lemma identifier_doi_url (identifier d : string) :
  startswith identifier "http" = true ->
  extract_doi_from_url identifier = Some d ->
  identifier_doi identifier = Ok d.
Proof.
  intros Hhttp Hd. unfold identifier_doi. rewrite Hhttp, Hd.
  destruct (extract_doi_group identifier d Hd) as (_ & _ & _ & Hlang).
  destruct (group_halves d Hlang) as (a & b & -> & Ha & _).
  destruct a as [|x a]; [congruence | reflexivity].
Qed.

End PipelineMore.

(** X9. The resolver link of a DOI and the DOI itself give the same result
    and the same request, for a DOI of two segments around a slash that
    does not start with [http]. *)
Theorem generate_link_same_as_doi (crossref : string -> response)
        (a b : string) (log : list string) :
  a <> "" -> b <> "" ->
  forallb Re.not_slash_space a = true ->
  forallb Re.not_slash_space b = true ->
  startswith (a ++ "/" ++ b) "http" = false ->
  generate_from_identifier crossref ("https://doi.org/" ++ a ++ "/" ++ b) log
  = generate_from_identifier crossref (a ++ "/" ++ b) log.
Proof.
  intros Ha Hb Fa Fb Hhttp.
  rewrite !generate_steps, (identifier_doi_link a b Ha Hb Fa Fb).
  unfold identifier_doi at 1. now rewrite Hhttp.
Qed.

Lemma generate_link_same_as_doi_witness :
  generate_from_identifier (Samples.registry Samples.journal_record)
                           ("https://doi.org/" ++ "10.1234" ++ "/"
                                               ++ "example.123") []
  = generate_from_identifier (Samples.registry Samples.journal_record)
                             ("10.1234" ++ "/" ++ "example.123") [].
Proof.
  refine (generate_link_same_as_doi
            (Samples.registry Samples.journal_record)
            "10.1234" "example.123" [] _ _ _ _ _);
    try reflexivity; discriminate.
Defined.

(** X16. For an identifier that starts with [http] and holds a DOI, the one
    request of the call is for that DOI, a part of the identifier, whatever
    the registry answers and whatever fails afterwards. *)
Theorem generate_requests_found_doi (crossref : string -> response)
        (identifier d : string) (log : list string) :
  startswith identifier "http" = true ->
  extract_doi_from_url identifier = Some d ->
  snd (generate_from_identifier crossref identifier log)
  = (log ++ [("https://api.crossref.org/works/" ++ d)%string])%list
  /\ exists pre post, identifier = pre ++ d ++ post.
Proof.
  intros Hhttp Hd. split.
  - rewrite generate_steps, (identifier_doi_url identifier d Hhttp Hd).
    cbv zeta.
    now destruct (crossref ("https://api.crossref.org/works/" ++ d)).
  - destruct (extract_doi_group identifier d Hd) as (w & s & -> & _). eauto.
Qed.

Lemma generate_requests_found_doi_witness :
  snd (generate_from_identifier
         Fixtures.offline
         "https://example.com/article/doi:10.1234/example.123" [])
  = ["https://api.crossref.org/works/10.1234/example.123"].
Proof.
  exact (proj1 (generate_requests_found_doi
                  Fixtures.offline
                  "https://example.com/article/doi:10.1234/example.123"
                  "10.1234/example.123" [] eq_refl eq_refl)).
Defined.

(** X17. When the request fails, the call raises a plain [Exception] whose
    message is [Error fetching DOI information: ] followed by the message of
    the failure; the request was sent once and is not sent again. *)
Theorem generate_transport_failure (crossref : string -> response)
        (identifier doi msg : string) (log : list string) :
  identifier_doi identifier = Ok doi ->
  crossref ("https://api.crossref.org/works/" ++ doi) = RequestException msg ->
  generate_from_identifier crossref identifier log
  = (Raise (Exception ("Error fetching DOI information: " ++ msg)),
     (log ++ [("https://api.crossref.org/works/" ++ doi)%string])%list).
Proof.
  intros Hdoi Hresp. rewrite generate_steps, Hdoi. cbv zeta.
  now rewrite Hresp.
Qed.

Lemma generate_transport_failure_witness :
  generate_from_identifier Fixtures.offline Samples.example_doi []
  = (Raise (Exception "Error fetching DOI information: API Error"),
     ["https://api.crossref.org/works/10.1234/example.123"]).
Proof.
  exact (generate_transport_failure
           Fixtures.offline Samples.example_doi Samples.example_doi
           "API Error" [] eq_refl eq_refl).
Defined.

(** X10. For a record whose present keys have the types of the CrossRef
    schema (no [null] value), the mapping of the record fails in one way
    only, with [IndexError], and exactly when the title list is there but
    empty, or the date parts are there but empty, or their first row is. *)
Theorem publication_info_raises (data : RawRecord) (doi : string) :
  (title data = Some []
   \/ Fixtures.date_rows data = []
   \/ (exists rows, Fixtures.date_rows data = [] :: rows) ->
   publication_info data doi = Raise IndexError)
  /\ (forall e,
         publication_info data doi = Raise e ->
         e = IndexError
         /\ (title data = Some []
             \/ Fixtures.date_rows data = []
             \/ (exists rows, Fixtures.date_rows data = [] :: rows))).
Proof.
  unfold publication_info, title_of.
  change (year_of data)
    with (let* row := first_item (Fixtures.date_rows data) in
          let* y := first_item row in Ok (str y)).
  split.
  - intros [Ht | [Hd | (rows & Hd)]].
    + now rewrite Ht.
    + rewrite Hd. now destruct (title data) as [[|t ts]|].
    + rewrite Hd. now destruct (title data) as [[|t ts]|].
  - intros e.
    destruct (title data) as [[|t ts]|]; cbn [rbind first_item];
      try (intros H; injection H as <-; now auto).
    + destruct (Fixtures.date_rows data) as [|[|y row] rows];
        cbn [rbind first_item];
        try (intros H; injection H as <-; now eauto).
      destruct (container_title data) as [[|j js]|]; discriminate.
    + destruct (Fixtures.date_rows data) as [|[|y row] rows];
        cbn [rbind first_item];
        try (intros H; injection H as <-; now eauto).
      destruct (container_title data) as [[|j js]|]; discriminate.
Qed.

Lemma publication_info_raises_witness :
  publication_info Fixtures.empty_title_record Samples.example_doi
  = Raise IndexError.
Proof.
  exact (proj1 (publication_info_raises Fixtures.empty_title_record
                                        Samples.example_doi)
               (or_introl eq_refl)).
Defined.

(** X11. The record [fetch_from_doi] returns has the keys [title],
    [authors], [year], [doi], [type] in this order, then [journal],
    [volume], [number], [pages], each only when the registry gave a value
    that is not empty; no key occurs twice. *)
Theorem publication_info_keys (data : RawRecord) (doi : string)
        (info : dict (option string)) :
  publication_info data doi = Ok info ->
  map fst info
  = (["title"; "authors"; "year"; "doi"; "type"]
       ++ (match container_title data with
           | Some (_ :: _) => ["journal"]
           | _ => []
           end)
       ++ (if truthy (volume data) then ["volume"] else [])
       ++ (if truthy (issue data) then ["number"] else [])
       ++ (if truthy (page data) then ["pages"] else []))%list
  /\ NoDup (map fst info).
Proof.
  unfold publication_info.
  destruct (title_of data) as [t|]; [| discriminate].
  destruct (year_of data) as [y|]; [| discriminate].
  cbn [rbind]. intros H.
  destruct (container_title data) as [[|j js]|];
    destruct (truthy (volume data));
    destruct (truthy (issue data));
    destruct (truthy (page data));
    cbn [rbind] in H; injection H as <-;
    (split; [reflexivity |]);
    cbn; repeat constructor; cbn; intuition discriminate.
Qed.

Lemma publication_info_keys_witness :
  exists info,
    publication_info Fixtures.two_author_record Samples.example_doi = Ok info
    /\ map fst info
       = ["title"; "authors"; "year"; "doi"; "type"; "journal"; "volume";
          "pages"].
Proof.
  eexists. split; [reflexivity |].
  exact (proj1 (publication_info_keys
                  Fixtures.two_author_record Samples.example_doi _ eq_refl)).
Defined.

Section Outcomes.



Lemma entry_of_proceedings (data : RawRecord) (doi : string)
      (info : dict (option string)) (key : string) :
  publication_info data doi = Ok info ->
  type data = Some "proceedings-article" ->
  entry_of info key = Raise TypeError.
Proof.
  intros Hinfo Hty.
  destruct (publication_info_fields data doi info Hinfo)
    as (t & y & _ & _ & Etitle & Eauthors & Eyear & _ & Etype & _).
  unfold entry_of, dict_item.
  now rewrite Etype, Hty, Etitle, Eauthors, Eyear.
Qed.

(** The entry of a mapped record is an [@article] entry, or the call
    raises [TypeError]. *)
Lemma entry_of_cases (data : RawRecord) (doi : string)
      (info : dict (option string)) (key : string) :
  publication_info data doi = Ok info ->
  (exists body, entry_of info key = Ok ("@article{" ++ body ++ nl ++ "}"))
  \/ entry_of info key = Raise TypeError.
Proof.
  intros Hinfo.
  destruct (publication_info_fields data doi info Hinfo)
    as (t & y & Ht & Hy & _).
  assert (Hdec : type data = Some "proceedings-article"
                 \/ type data <> Some "proceedings-article").
  { destruct (type data) as [ty|]; [| right; discriminate].
    destruct (String.eqb_spec ty "proceedings-article") as [-> | Hne];
      [now left | right; congruence]. }
  destruct Hdec as [Hty | Hty].
  - right. now apply (entry_of_proceedings data doi).
  - left. rewrite (entry_of_article data doi info key t y Hinfo Ht Hy Hty).
    unfold create_article.
    match goal with
    | |- context [_create_entry ?ty ?k ?fields] =>
        destruct (entry_open ty k fields) as (body & ->)
    end.
    now exists body.
Qed.

End Outcomes.



(** X15. Every entry [generate_from_identifier] returns is an [@article]
    entry, closed by a newline and a brace, whatever the type of the
    record. *)
Theorem generate_article_only (crossref : string -> response)
        (identifier : string) (log : list string) (out : string) :
  fst (generate_from_identifier crossref identifier log) = Ok out ->
  exists body, out = "@article{" ++ body ++ nl ++ "}".
Proof.
  rewrite generate_steps.
  destruct (identifier_doi identifier) as [doi|]; [| discriminate].
  cbv zeta.
  destruct (crossref ("https://api.crossref.org/works/" ++ doi))
    as [msg|data]; cbn [fst]; [discriminate |].
  destruct (publication_info data doi) as [info|] eqn:Hinfo; cbn [rbind];
    [| discriminate].
  destruct (citation_key_of info) as [key|]; cbn [rbind]; [| discriminate].
  destruct (entry_of_cases data doi info key Hinfo) as [(body & ->) | ->];
    [| discriminate].
  intros H. injection H as <-. now exists body.
Qed.

Lemma generate_article_only_witness :
  exists body,
    "@article{doe2024test," ++ nl
    ++ "  author = {John Doe}," ++ nl
    ++ "  title = {Test Article}," ++ nl
    ++ "  journal = {Test Journal}," ++ nl
    ++ "  year = {2024}," ++ nl
    ++ "  doi = {10.1234/example.123}" ++ nl
    ++ "}"
    = "@article{" ++ body ++ nl ++ "}".
Proof.
  exact (generate_article_only
           (Samples.registry Samples.book_record)
           Samples.example_doi [] _ eq_refl).
Defined.

(** ** The citation key *)

Section CitationKey.

Let no_space (c : ascii) : bool := negb (isspace c).

(** A word is its own only word. *)
Lemma split_word (f : string) :
  f <> "" -> forallb no_space f = true -> split f = [f].
Proof.
  induction f as [|c f IH]; [congruence |].
  intros _ H. cbn [forallb] in H. apply andb_prop in H as [Hc Hf].
  unfold no_space in Hc. apply negb_true_iff in Hc.
  destruct f as [|c' f].
  - cbn [split]. now rewrite Hc.
  - assert (Hc' : isspace c' = false).
    { cbn [forallb] in Hf. apply andb_prop in Hf as [Hc' _].
      now apply negb_true_iff in Hc'. }
    change (split (String c (String c' f))) with
      (if isspace c then split (String c' f)
       else if isspace c' then String c "" :: split (String c' f)
            else match split (String c' f) with
                 | h :: t => String c h :: t
                 | [] => [String c ""]
                 end).
    rewrite Hc, Hc', IH; [reflexivity | discriminate | exact Hf].
Qed.

(** A text that starts with a character of a word has a first word. *)
Lemma split_starts (c : ascii) (x : string) :
  isspace c = false -> exists h t, split (String c x) = h :: t.
Proof.
  intros Hc. destruct x as [|c' x].
  - cbn [split]. rewrite Hc. eauto.
  - change (split (String c (String c' x))) with
      (if isspace c then split (String c' x)
       else if isspace c' then String c "" :: split (String c' x)
            else match split (String c' x) with
                 | h :: t => String c h :: t
                 | [] => [String c ""]
                 end).
    rewrite Hc. destruct (isspace c'); [eauto |].
    destruct (split (String c' x)); eauto.
Qed.

(** A word after a space is the last word. *)
Lemma split_append_word (x f : string) :
  f <> "" -> forallb no_space f = true ->
  split (x ++ String " " f) = (split x ++ [f])%list.
Proof.
  intros Hne Hf. induction x as [|c x IH].
  - cbn [append app]. change (split (String " " f)) with (split f).
    now apply split_word.
  - destruct x as [|c' x].
    + cbn [append]. cbn [append] in IH.
      change (split (String c (String " " f))) with
        (if isspace c then split (String " " f)
         else String c "" :: split (String " " f)).
      rewrite IH. cbn [split]. now destruct (isspace c).
    + cbn [append] in IH |- *.
      change (split (String c (String c' (x ++ String " " f)))) with
        (if isspace c then split (String c' (x ++ String " " f))
         else if isspace c' then
                String c "" :: split (String c' (x ++ String " " f))
              else match split (String c' (x ++ String " " f)) with
                   | h :: t => String c h :: t
                   | [] => [String c ""]
                   end).
      change (split (String c (String c' x))) with
        (if isspace c then split (String c' x)
         else if isspace c' then String c "" :: split (String c' x)
              else match split (String c' x) with
                   | h :: t => String c h :: t
                   | [] => [String c ""]
                   end).
      rewrite IH.
      destruct (isspace c); [reflexivity |].
      destruct (isspace c') eqn:Hc'; [reflexivity |].
      destruct (split_starts c' x Hc') as (h & t & ->). reflexivity.
Qed.

Lemma last_item_snoc {A} (l : list A) (x : A) : last_item (l ++ [x]) = Ok x.
Proof. unfold last_item. now rewrite rev_unit. Qed.

Lemma first_piece (n : string) (names : list string) :
  count "," n = 0 ->
  exists t, split_on "," (join ", " (n :: names)) = n :: t.
Proof.
  intros Hn. destruct names as [|m names].
  - exists []. unfold join. cbn [String.concat]. now apply split_on_whole.
  - change (join ", " (n :: m :: names))
      with (n ++ String "," (String " " (join ", " (m :: names)))).
    rewrite (split_on_first _ _ _ Hn). eauto.
Qed.

(** The last word of the first author of a record is the family name, when
    that is one word. *)
Lemma first_author_family (data : RawRecord) (g : option string)
      (f : string) (others : list Author) :
  author data = Some ({| given := g; family := Some f |} :: others) ->
  f <> "" -> forallb no_space f = true -> count "," f = 0 ->
  count "," (match g with Some s => s | None => "" end) = 0 ->
  (let* first := first_item (split_on "," (authors_of data)) in
   last_item (split first)) = Ok f.
Proof.
  intros Ha Hne Hf Hcf Hcg.
  change (authors_of data)
    with (join ", " (map Fixtures.full_name (Fixtures.author_list data))).
  unfold Fixtures.author_list. rewrite Ha. cbn [map].
  set (g' := match g with Some s => s | None => "" end) in *.
  change (Fixtures.full_name {| given := g; family := Some f |})
    with (g' ++ String " " f).
  destruct (first_piece (g' ++ String " " f)
                        (map Fixtures.full_name others)) as (tl & ->).
  { rewrite count_append. cbn [count]. cbn [Ascii.eqb Bool.eqb]. lia. }
  cbn [rbind first_item].
  now rewrite (split_append_word g' f Hne Hf), last_item_snoc.
Qed.

End CitationKey.

(** X13. For a record whose first author has a family name of one word and
    whose title has a first word, the citation key is the family name in
    lower case, the year as [fetch_from_doi] stored it, and the first word
    of the title in lower case; given names and further authors do not
    matter. *)
Theorem citation_key_formula (data : RawRecord) (doi : string)
        (info : dict (option string)) (g : option string)
        (f : string) (others : list Author) (t : string) (ts : list string)
        (w : string) (ws : list string) (y : string) :
  author data = Some ({| given := g; family := Some f |} :: others) ->
  f <> "" -> forallb (fun c => negb (isspace c)) f = true ->
  count "," f = 0 ->
  count "," (match g with Some s => s | None => "" end) = 0 ->
  title data = Some (t :: ts) ->
  split t = w :: ws ->
  year_of data = Ok y ->
  publication_info data doi = Ok info ->
  citation_key_of info = Ok (lower f ++ y ++ lower w).
Proof.
  intros Ha Hne Hf Hcf Hcg Ht Hw Hy Hinfo.
  destruct (publication_info_fields data doi info Hinfo)
    as (t' & y' & Ht' & Hy' & Etitle & Eauthors & Eyear & _).
  rewrite Hy in Hy'. injection Hy' as <-.
  unfold title_of in Ht'. rewrite Ht in Ht'. cbn in Ht'. injection Ht' as <-.
  pose proof (first_author_family data g f others Ha Hne Hf Hcf Hcg) as Hlast.
  unfold citation_key_of, dict_item. rewrite Eauthors, Etitle, Eyear.
  cbn [rbind as_str].
  destruct (first_item (split_on "," (authors_of data))) as [first|];
    cbn [rbind] in Hlast |- *; [| discriminate].
  rewrite Hlast. cbn [rbind]. now rewrite Hw.
Qed.

Lemma citation_key_formula_witness :
  exists info,
    publication_info Fixtures.two_author_record Samples.example_doi = Ok info
    /\ citation_key_of info = Ok "lovelace1950deep".
Proof.
  eexists. split; [reflexivity |].
  refine (citation_key_formula
            Fixtures.two_author_record Samples.example_doi _
            (Some "Ada B.") "Lovelace"
            [ {| given := None; family := Some "Turing" |} ]
            "Deep  Learning, revisited" [] "Deep" ["Learning,"; "revisited"]
            "1950" _ _ _ _ _ _ _ _ _);
    try reflexivity.
  discriminate.
Defined.


